(** * restflex: the request dispatcher, its error model and its write tracker

    A shallow embedding of the Go package [restflex] (files [restflex.go],
    [error.go], [response_writer.go]) together with the parts of the legacy
    package [rest] ([rest.go]) that the specification refers to.

    Go values are modelled as follows.
    - [int] is [Z]; [string] is [string] (a sequence of bytes); [[]byte] is
      [list byte]; a [[]string] is a [list string] (a nil slice and an empty
      slice are both [[]]).
    - the [error] interface is [option error]: [None] is Go's [nil].
    - [http.Header] is a finite map from canonical keys to value lists.
    - [http.ResponseWriter] is a type class; the tracked writer and the
      recorder of [net/http/httptest] are its instances.
    - a panic is [None] in the result of an operation. *)

From Stdlib Require Import ZArith Lia Ascii String.
From stdpp Require Import base option list gmap strings.

Local Open Scope Z_scope.
Local Open Scope string_scope.

(** ** Errors *)

Module APIErrors.

(** The dynamic types an [error] value of this program can have:
    [errors.New(text)], [fmt.Errorf("...%w", err)] and [*apiError]
    ([error.go], lines 27-31). *)
Inductive error : Type :=
| errorString (text : string)
| wrapError (text : string) (err : error)
| apiErr (e : apiError)
with apiError : Type :=
| mkAPIError (statusCode : Z) (cause : option error) (messages : list string).

Definition statusCode (e : apiError) : Z :=
  match e with mkAPIError s _ _ => s end.
Definition cause (e : apiError) : option error :=
  match e with mkAPIError _ c _ => c end.
Definition messages (e : apiError) : list string :=
  match e with mkAPIError _ _ m => m end.

(** [NewAPIError(statusCode, cause, messages...)]. *)
Definition NewAPIError (statusCode : Z) (cause : option error)
    (messages : list string) : error :=
  apiErr (mkAPIError statusCode cause messages).

Definition StatusBadRequest : Z := 400.
Definition StatusUnsupportedMediaType : Z := 415.
Definition StatusUnprocessableEntity : Z := 422.
Definition StatusTooManyRequests : Z := 429.
Definition StatusInternalServerError : Z := 500.
Definition StatusNotImplemented : Z := 501.
Definition StatusOK : Z := 200.

Definition NewValidationError (messages : list string) : error :=
  NewAPIError StatusUnprocessableEntity None messages.

Definition NewBadRequest (messages : list string) : error :=
  NewAPIError StatusBadRequest None messages.

(** The [Error() string] method of each dynamic type; for [*apiError] it is
    [error.go], lines 50-58. *)
Fixpoint Error (e : error) : string :=
  match e with
  | errorString text => text
  | wrapError text _ => text
  | apiErr (mkAPIError _ c ms) =>
      match c with
      | Some c' => Error c'
      | None =>
          match ms with
          | m :: _ => m
          | [] => "unknown API error"
          end
      end
  end.

Definition StatusCode (e : apiError) : Z := statusCode e.
Definition Unwrap (e : apiError) : option error := cause e.
Definition Errors (e : apiError) : list string := messages e.

(** [errors.As(err, &apiError)] with a target of interface type [APIError]:
    the first error of the [Unwrap] chain that implements [APIError]. *)
Fixpoint errorsAs (e : error) : option apiError :=
  match e with
  | errorString _ => None
  | wrapError _ inner => errorsAs inner
  | apiErr a => Some a
  end.

Definition As (err : option error) : option apiError :=
  match err with
  | None => None
  | Some e => errorsAs e
  end.

End APIErrors.
Export APIErrors.

(** ** Library functions of [net/http], [strings] and [fmt] the code calls *)

Module GoLib.

(** [http.StatusText]: the reason phrase of a status code, the empty string
    for an unknown code. *)
Definition StatusText (code : Z) : string :=
  match code with
  | 100 => "Continue"
  | 101 => "Switching Protocols"
  | 102 => "Processing"
  | 103 => "Early Hints"
  | 200 => "OK"
  | 201 => "Created"
  | 202 => "Accepted"
  | 203 => "Non-Authoritative Information"
  | 204 => "No Content"
  | 205 => "Reset Content"
  | 206 => "Partial Content"
  | 207 => "Multi-Status"
  | 208 => "Already Reported"
  | 226 => "IM Used"
  | 300 => "Multiple Choices"
  | 301 => "Moved Permanently"
  | 302 => "Found"
  | 303 => "See Other"
  | 304 => "Not Modified"
  | 305 => "Use Proxy"
  | 307 => "Temporary Redirect"
  | 308 => "Permanent Redirect"
  | 400 => "Bad Request"
  | 401 => "Unauthorized"
  | 402 => "Payment Required"
  | 403 => "Forbidden"
  | 404 => "Not Found"
  | 405 => "Method Not Allowed"
  | 406 => "Not Acceptable"
  | 407 => "Proxy Authentication Required"
  | 408 => "Request Timeout"
  | 409 => "Conflict"
  | 410 => "Gone"
  | 411 => "Length Required"
  | 412 => "Precondition Failed"
  | 413 => "Request Entity Too Large"
  | 414 => "Request URI Too Long"
  | 415 => "Unsupported Media Type"
  | 416 => "Requested Range Not Satisfiable"
  | 417 => "Expectation Failed"
  | 418 => "I'm a teapot"
  | 421 => "Misdirected Request"
  | 422 => "Unprocessable Entity"
  | 423 => "Locked"
  | 424 => "Failed Dependency"
  | 425 => "Too Early"
  | 426 => "Upgrade Required"
  | 428 => "Precondition Required"
  | 429 => "Too Many Requests"
  | 431 => "Request Header Fields Too Large"
  | 451 => "Unavailable For Legal Reasons"
  | 500 => "Internal Server Error"
  | 501 => "Not Implemented"
  | 502 => "Bad Gateway"
  | 503 => "Service Unavailable"
  | 504 => "Gateway Timeout"
  | 505 => "HTTP Version Not Supported"
  | 506 => "Variant Also Negotiates"
  | 507 => "Insufficient Storage"
  | 508 => "Loop Detected"
  | 510 => "Not Extended"
  | 511 => "Network Authentication Required"
  | _ => ""
  end.

Definition MethodGet : string := "GET".
Definition MethodPost : string := "POST".
Definition MethodPut : string := "PUT".
Definition MethodPatch : string := "PATCH".

(** [strings.HasPrefix(s, prefix)]. *)
Definition HasPrefix (s pre : string) : bool := String.prefix pre s.

(** [strings.Split(s, sep)] for a separator of one byte. The result is never
    empty: [Split "" sep] is the list holding the empty string. *)
Fixpoint Split (s : string) (sep : ascii) : list string :=
  match s with
  | EmptyString => [EmptyString]
  | String c s' =>
      if Ascii.eqb c sep then EmptyString :: Split s' sep
      else
        match Split s' sep with
        | piece :: pieces => String c piece :: pieces
        | [] => [String c EmptyString]
        end
  end.

Definition dquote : ascii := "034"%char.
Definition backslash : ascii := "092"%char.

Definition hexDigit (n : N) : ascii :=
  ascii_of_N (if (n <? 10)%N then 48 + n else 87 + n)%N.

(** [fmt.Sprintf("%q", s)], that is [strconv.Quote], on ASCII input: the
    string in double quotes, with the quote and the backslash escaped,
    printable bytes kept and the other bytes written as escapes. *)
Definition quoteByte (c : ascii) : string :=
  let n := N_of_ascii c in
  if Ascii.eqb c dquote then String backslash (String dquote EmptyString)
  else if Ascii.eqb c backslash then String backslash (String backslash EmptyString)
  else if ((32 <=? n) && (n <? 127))%N then String c EmptyString
  else match n with
       | 7%N => String backslash "a"
       | 8%N => String backslash "b"
       | 12%N => String backslash "f"
       | 10%N => String backslash "n"
       | 13%N => String backslash "r"
       | 9%N => String backslash "t"
       | 11%N => String backslash "v"
       | _ => String backslash
                (String "x" (String (hexDigit (n / 16)) (String (hexDigit (n mod 16)) EmptyString)))
       end.

Fixpoint quoteBody (s : string) : string :=
  match s with
  | EmptyString => EmptyString
  | String c s' => quoteByte c +:+ quoteBody s'
  end.

Definition Quote (s : string) : string :=
  String dquote (quoteBody s +:+ String dquote EmptyString).

End GoLib.
Export GoLib.

(** ** JSON documents *)

Module JSON.

(** The value an encoder is given, before it is written as text. The text
    itself is the business of [encoding/json] and is not modelled: a response
    body records the documents handed to the encoder. *)
#[local] Unset Elimination Schemes.
Inductive json : Type :=
| JNull
| JBool (b : bool)
| JNumber (n : Z)
| JString (s : string)
| JArray (items : list json)
| JObject (fields : list (string * json)).
#[local] Set Elimination Schemes.

(** [ErrorMessage] ([restflex.go], lines 96-99): one field, tagged [errors]. *)
Record ErrorMessage : Type := mkErrorMessage { ErrorsField : list string }.

Definition NewErrorMessage (errors : list string) : ErrorMessage :=
  {| ErrorsField := errors |}.

(** How the encoder sees an [ErrorMessage]: a nil slice is [null], any other
    slice an array of strings. *)
Definition marshalErrorMessage (m : ErrorMessage) : json :=
  JObject [("errors",
            match ErrorsField m with
            | [] => JNull
            | ms => JArray (map JString ms)
            end)].

Fixpoint lookupField (name : string) (fields : list (string * json)) : option json :=
  match fields with
  | [] => None
  | (k, v) :: rest => if String.eqb k name then Some v else lookupField name rest
  end.

Fixpoint stringsOf (items : list json) : option (list string) :=
  match items with
  | [] => Some []
  | JString s :: rest =>
      match stringsOf rest with
      | Some ss => Some (s :: ss)
      | None => None
      end
  | _ :: _ => None
  end.

(** Decoding a document into an [ErrorMessage], as a client of the API does:
    an object is required, a missing or null field leaves the slice nil, an
    array must hold strings. *)
Definition unmarshalErrorMessage (v : json) : option ErrorMessage :=
  match v with
  | JObject fields =>
      match lookupField "errors" fields with
      | None | Some JNull => Some (NewErrorMessage [])
      | Some (JArray items) =>
          match stringsOf items with
          | Some ss => Some (NewErrorMessage ss)
          | None => None
          end
      | Some _ => None
      end
  | _ => None
  end.

End JSON.
Export JSON.

(** ** The response sink and its write tracker *)

Module HTTP.

(** One byte of a [[]byte]. *)
Abbreviation byte := Byte.byte.

(** [http.Header]: canonical key to values. *)
Abbreviation Header := (gmap string (list string)).

(** The interface [http.ResponseWriter], as this code uses a sink [w]:
    - [HeaderSet k v w] is [w.Header().Set(k, v)];
    - [Write b w] is [w.Write(b)], giving the byte count and the error;
    - [WriteHeader code w] is [w.WriteHeader(code)], which may panic;
    - [Encode v w] is [json.NewEncoder(w).Encode(v)]: the text of [v] goes to
      the sink in one [Write], whose error is the result. *)
Class ResponseWriter (W : Type) : Type := {
  HeaderSet : string -> string -> W -> W;
  Write : list byte -> W -> W * (Z * option error);
  WriteHeader : Z -> W -> option W;
  Encode : json -> W -> W * option error
}.

(** [responseWriter] ([response_writer.go], lines 7-11). The embedded
    [http.ResponseWriter] is the field [underlying]. *)
Record responseWriter (W : Type) : Type := mkResponseWriter {
  underlying : W;
  isWritten : bool;
  status : Z
}.
Arguments mkResponseWriter {W} _ _ _.
Arguments underlying {W} _.
Arguments isWritten {W} _.
Arguments status {W} _.

(** [responseWriter.WriteHeader], lines 15-19. *)
Definition responseWriter_WriteHeader {W} `{!ResponseWriter W}
    (st : Z) (w : responseWriter W) : option (responseWriter W) :=
  match WriteHeader st (underlying w) with
  | None => None
  | Some u => Some {| underlying := u; status := st; isWritten := true |}
  end.

(** [responseWriter.Write], lines 23-27. *)
Definition responseWriter_Write {W} `{!ResponseWriter W}
    (b : list byte) (w : responseWriter W) : responseWriter W * (Z * option error) :=
  let '(u, (i, err)) := Write b (underlying w) in
  ({| underlying := u; isWritten := true; status := status w |}, (i, err)).

(** [Header] is promoted from the embedded sink. *)
Definition responseWriter_HeaderSet {W} `{!ResponseWriter W}
    (k v : string) (w : responseWriter W) : responseWriter W :=
  {| underlying := HeaderSet k v (underlying w);
     isWritten := isWritten w; status := status w |}.

(** The encoder holds the tracked writer, so its one [Write] is
    [responseWriter.Write]. *)
Definition responseWriter_Encode {W} `{!ResponseWriter W}
    (v : json) (w : responseWriter W) : responseWriter W * option error :=
  let '(u, err) := Encode v (underlying w) in
  ({| underlying := u; isWritten := true; status := status w |}, err).

#[export] Instance responseWriter_ResponseWriter {W} `{!ResponseWriter W}
  : ResponseWriter (responseWriter W) := {
  HeaderSet := responseWriter_HeaderSet;
  Write := responseWriter_Write;
  WriteHeader := responseWriter_WriteHeader;
  Encode := responseWriter_Encode
}.

(** *** Handlers *)

(** What a handler does with the sink it is given: a finite tree of calls on
    the [http.ResponseWriter] interface, each continuation reading what the
    call returned, ended by the returned error. *)
Inductive prog : Type :=
| Return (err : option error)
| SetHeader (key value : string) (next : prog)
| CallWriteHeader (code : Z) (next : prog)
| CallWrite (b : list byte) (next : Z -> option error -> prog)
| CallEncode (v : json) (next : option error -> prog).

(** Running a handler body on a sink; [None] when a call panics. *)
Fixpoint exec {W} `{!ResponseWriter W} (p : prog) (w : W) : option (option error * W) :=
  match p with
  | Return err => Some (err, w)
  | SetHeader k v next => exec next (HeaderSet k v w)
  | CallWriteHeader code next =>
      match WriteHeader code w with
      | None => None
      | Some w' => exec next w'
      end
  | CallWrite b next =>
      let '(w', (n, err)) := Write b w in exec (next n err) w'
  | CallEncode v next =>
      let '(w', err) := Encode v w in exec (next err) w'
  end.

(** The number of [WriteHeader], [Write] and [Encode] calls a handler body
    makes on a sink before it returns or panics. *)
Fixpoint writeCalls {W} `{!ResponseWriter W} (p : prog) (w : W) : nat :=
  match p with
  | Return _ => 0%nat
  | SetHeader k v next => writeCalls next (HeaderSet k v w)
  | CallWriteHeader code next =>
      match WriteHeader code w with
      | None => 1%nat
      | Some w' => S (writeCalls next w')
      end
  | CallWrite b next =>
      let '(w', (n, err)) := Write b w in S (writeCalls (next n err) w')
  | CallEncode v next =>
      let '(w', err) := Encode v w in S (writeCalls (next err) w')
  end.

(** *** Requests *)

(** The fields of [*http.Request] the dispatcher and its handlers read. *)
Record Request : Type := mkRequest {
  Method : string;
  RequestHeader : Header;
  RequestURI : string;
  RequestBody : list byte
}.

(** [Header.Get(key)] for a key in canonical form: the first value, or the
    empty string. *)
Definition HeaderGet (h : Header) (key : string) : string :=
  match h !! key with
  | Some (v :: _) => v
  | _ => ""
  end.

End HTTP.
Export HTTP.

(** ** The recorder of [net/http/httptest]

    The sink the tests of the repository hand to the dispatcher, and the
    view of the response a client gets from it. It follows the contract of
    [http.ResponseWriter]: the first [WriteHeader] (explicit, or implied by
    the first [Write]) fixes the status code and the headers; a later
    [WriteHeader] is ignored and a later change of the header map is not part
    of the response. *)

Module Recorder.

(** What one [Write] appended to the body buffer: bytes of the handler, or
    the text of a document handed to an encoder. *)
Inductive chunk : Type :=
| Raw (b : list byte)
| Doc (v : json).

Record ResponseRecorder : Type := mkResponseRecorder {
  Code : Z;
  HeaderMap : Header;
  Body : list chunk;
  wroteHeader : bool;
  snapHeader : option Header
}.

(** [httptest.NewRecorder()]. *)
Definition NewRecorder : ResponseRecorder :=
  {| Code := 200; HeaderMap := ∅; Body := []; wroteHeader := false;
     snapHeader := None |}.

Definition isLower (c : ascii) : bool :=
  let n := N_of_ascii c in ((97 <=? n) && (n <=? 122))%N.
Definition isUpper (c : ascii) : bool :=
  let n := N_of_ascii c in ((65 <=? n) && (n <=? 90))%N.
Definition isDigit (c : ascii) : bool :=
  let n := N_of_ascii c in ((48 <=? n) && (n <=? 57))%N.

(** The bytes of an HTTP token. *)
Definition validHeaderFieldByte (c : ascii) : bool :=
  isLower c || isUpper c || isDigit c
  || existsb (Ascii.eqb c)
       ["!"; "#"; "$"; "%"; "&"; "'"; "*"; "+"; "-"; "."; "^"; "_"; "`"; "|"; "~"]%char.

Fixpoint allBytes (f : ascii -> bool) (s : string) : bool :=
  match s with
  | EmptyString => true
  | String c s' => f c && allBytes f s'
  end.

Fixpoint canonicalLoop (upper : bool) (s : string) : string :=
  match s with
  | EmptyString => EmptyString
  | String c s' =>
      let c' :=
        if upper && isLower c then ascii_of_N (N_of_ascii c - 32)
        else if negb upper && isUpper c then ascii_of_N (N_of_ascii c + 32)
        else c in
      String c' (canonicalLoop (Ascii.eqb c' "-") s')
  end.

(** [textproto.CanonicalMIMEHeaderKey]: a key made of token bytes gets an
    upper-case letter first and after each hyphen, lower-case letters
    elsewhere; any other key is kept as it is. *)
Definition CanonicalMIMEHeaderKey (s : string) : string :=
  if allBytes validHeaderFieldByte s then canonicalLoop true s else s.

(** [h.Set(key, value)]. *)
Definition Header_Set (h : Header) (key value : string) : Header :=
  <[CanonicalMIMEHeaderKey key := [value]]> h.

(** [checkWriteHeaderCode]: a code outside 100..999 panics. *)
Definition validCode (code : Z) : bool := ((100 <=? code) && (code <=? 999))%Z.

(** [(rw *ResponseRecorder) WriteHeader(code)]. *)
Definition Recorder_WriteHeader (code : Z) (rw : ResponseRecorder)
    : option ResponseRecorder :=
  if wroteHeader rw then Some rw
  else if validCode code then
    Some {| Code := code; HeaderMap := HeaderMap rw; Body := Body rw;
            wroteHeader := true; snapHeader := Some (HeaderMap rw) |}
  else None.

(** The unexported [writeHeader] that [Write] starts with: unless the header
    is written already, a missing [Content-Type] is set to the type sniffed
    from the data and the status 200 is written. *)
Definition Recorder_writeHeader (sniffed : string) (rw : ResponseRecorder)
    : ResponseRecorder :=
  if wroteHeader rw then rw
  else
    let m := HeaderMap rw in
    let hasType := bool_decide (is_Some (m !! "Content-Type")) in
    let hasTE := negb (String.eqb (HeaderGet m "Transfer-Encoding") "") in
    let m' := if negb hasType && negb hasTE
              then Header_Set m "Content-Type" sniffed else m in
    {| Code := 200; HeaderMap := m'; Body := Body rw;
       wroteHeader := true; snapHeader := Some m' |}.

Definition appendBody (c : chunk) (rw : ResponseRecorder) : ResponseRecorder :=
  {| Code := Code rw; HeaderMap := HeaderMap rw; Body := (Body rw ++ [c])%list;
     wroteHeader := wroteHeader rw; snapHeader := snapHeader rw |}.

(** The type [http.DetectContentType] gives to JSON text. *)
Definition sniffedJSON : string := "text/plain; charset=utf-8".

Section WithSniffer.

(** [http.DetectContentType], the sniffing of [net/http]. *)
Variable DetectContentType : list byte -> string.

(** [(rw *ResponseRecorder) Write(buf)]: never fails. *)
Definition Recorder_Write (buf : list byte) (rw : ResponseRecorder)
    : ResponseRecorder * (Z * option error) :=
  (appendBody (Raw buf) (Recorder_writeHeader (DetectContentType buf) rw),
   (Z.of_nat (length buf), None)).

Definition Recorder_Encode (v : json) (rw : ResponseRecorder)
    : ResponseRecorder * option error :=
  (appendBody (Doc v) (Recorder_writeHeader sniffedJSON rw), None).

Definition Recorder_HeaderSet (k v : string) (rw : ResponseRecorder)
    : ResponseRecorder :=
  {| Code := Code rw; HeaderMap := Header_Set (HeaderMap rw) k v;
     Body := Body rw; wroteHeader := wroteHeader rw;
     snapHeader := snapHeader rw |}.

Definition Recorder_ResponseWriter : ResponseWriter ResponseRecorder := {|
  HeaderSet := Recorder_HeaderSet;
  Write := Recorder_Write;
  WriteHeader := Recorder_WriteHeader;
  Encode := Recorder_Encode
|}.

End WithSniffer.

(** The response a client reads: [(rw *ResponseRecorder) Result()]. *)
Record Response : Type := mkResponse {
  RespStatusCode : Z;
  RespHeader : Header;
  RespBody : list chunk
}.

Definition Result (rw : ResponseRecorder) : Response :=
  {| RespStatusCode := if (Code rw =? 0)%Z then 200 else Code rw;
     RespHeader := match snapHeader rw with
                       | Some h => h
                       | None => HeaderMap rw
                       end;
     RespBody := Body rw |}.

(** [json.NewDecoder(res.Body).Decode(&response)] followed by
    [response.Errors], as the tests read an error response: the first
    document of the body, taken as an [ErrorMessage]. Empty writes add no
    byte. A body that starts with bytes of a handler is not read. *)
Fixpoint decodedErrors (body : list chunk) : option (list string) :=
  match body with
  | Doc v :: _ => ErrorsField <$> unmarshalErrorMessage v
  | Raw [] :: rest => decodedErrors rest
  | _ => None
  end.

End Recorder.
Export Recorder.

(** ** The dispatcher of [restflex.go] *)

Module Restflex.

(** The lines [h.Log.Printf] writes, by call site, with the values they
    format. *)
Inductive logEntry : Type :=
| LogReturned (err : option error) (isWritten : bool)
| LogClientError (responseStatus : Z)
| LogServerError (responseStatus : Z) (err : option error)
| LogEncodeFailure (errOnError : error).

(** What one call of [ServeHTTP] leaves behind: the sink it was given, the
    lines it logged, and how many times it called the wrapped handler. *)
Record outcome (W : Type) : Type := mkOutcome {
  sink : W;
  logged : list logEntry;
  invocations : nat
}.
Arguments mkOutcome {W} _ _ _.
Arguments sink {W} _.
Arguments logged {W} _.
Arguments invocations {W} _.

(** [httpx.HandlerWithContext]: [ServeHTTPWithContext(ctx, w, r)], the
    context being the one of the request. *)
Definition HandlerWithContext : Type := Request -> prog.

(** [EncodeJSON], lines 119-125. *)
Definition EncodeJSON {W} `{!ResponseWriter W} (w : W) (msg : json)
    : W * option error :=
  match Encode msg w with
  | (w', Some cause) =>
      (w', Some (NewAPIError StatusInternalServerError (Some cause) []))
  | (w', None) => (w', None)
  end.

(** [handler.Error], lines 108-116: the status line first, then the content
    type on the header map, then the body. *)
Definition Error {W} `{!ResponseWriter W} (w : W) (statusCode : Z)
    (messages : list string) : option (W * list logEntry) :=
  match WriteHeader statusCode w with
  | None => None
  | Some w1 =>
      let w2 := HeaderSet "Content-Type" "application/json; charset=utf-8" w1 in
      let msg := NewErrorMessage messages in
      match EncodeJSON w2 (marshalErrorMessage msg) with
      | (w3, Some errOnError) => Some (w3, [LogEncodeFailure errOnError])
      | (w3, None) => Some (w3, [])
      end
  end.

Definition acceptedContentTypes : list string :=
  ["application/json"; "application/x-www-form-urlencoded"].

(** The inner loop of lines 44-49, with its [break]. *)
Fixpoint matchAccepted (t : string) (accepted : list string) (found : bool) : bool :=
  match accepted with
  | [] => found
  | acceptedContentType :: rest =>
      if HasPrefix t acceptedContentType then true
      else matchAccepted t rest found
  end.

(** The message loop of lines 53-58; [i] is the index of the head of
    [rest]. *)
Fixpoint appendAccepted (i : Z) (rest : list string) (msg : string) : string :=
  match rest with
  | [] => msg
  | acceptedContentType :: rest' =>
      let msg1 := msg +:+ Quote acceptedContentType in
      let msg2 :=
        if (i - 1 <? Z.of_nat (length acceptedContentTypes))%Z
        then msg1 +:+ " or " else msg1 in
      appendAccepted (i + 1) rest' msg2
  end.

Definition gateMessage : string :=
  appendAccepted 0 acceptedContentTypes
    "POST, PUT, and PATCH methods require request content type of ".

(** The test of line 32. *)
Definition isMutating (method : string) : bool :=
  String.eqb method MethodPost || String.eqb method MethodPut
  || String.eqb method MethodPatch.

(** The [switch] of lines 77-84. *)
Definition logStatus (responseStatus : Z) (isAPIErr : bool) (err : option error)
    : list logEntry :=
  if ((399 <? responseStatus) && (responseStatus <? 500))%Z then
    [LogClientError responseStatus]
  else if ((responseStatus =? 500) || (501 <? responseStatus))%Z then
    if negb isAPIErr then [LogServerError responseStatus err] else []
  else [].

(** The tracked writer of lines 63-66. *)
Definition newResponseWriter {W} (w : W) : responseWriter W :=
  {| underlying := w; status := StatusOK; isWritten := false |}.

Section Dispatcher.

Context {W : Type} `{!ResponseWriter W}.

(** [mime.ParseMediaType], reduced to what line 40 keeps of it: the media
    type when the error is nil, [None] otherwise. *)
Variable ParseMediaType : string -> option string.

(** The outer loop of lines 39-50. *)
Fixpoint scanContentTypes (parts : list string) (found : bool) : bool :=
  match parts with
  | [] => found
  | v :: rest =>
      match ParseMediaType v with
      | None => scanContentTypes rest found
      | Some t => scanContentTypes rest (matchAccepted t acceptedContentTypes found)
      end
  end.

Definition correctContentTypeFound (r : Request) : bool :=
  let contentType := HeaderGet (RequestHeader r) "Content-Type" in
  scanContentTypes (Split contentType ","%char) false.

(** The request gets past lines 32-62: its method is not one of the three,
    or an accepted content type was found. *)
Definition gatePasses (r : Request) : bool :=
  negb (isMutating (Method r)) || correctContentTypeFound r.

(** Lines 63-94: the handler runs on a fresh tracked writer, then its
    outcome is classified. *)
Definition serve (h : HandlerWithContext) (w : W) (r : Request)
    : option (outcome W) :=
  let rw := newResponseWriter w in
  match exec (h r) rw with
  | None => None
  | Some (err, rw) =>
      let log1 := [LogReturned err (isWritten rw)] in
      if bool_decide (err = None) && negb (isWritten rw) then
        match Error rw StatusNotImplemented [StatusText StatusNotImplemented] with
        | None => None
        | Some (rw', l) => Some (mkOutcome (underlying rw') (log1 ++ l)%list 1)
        end
      else
        let apiError := As err in
        let isAPIErr := bool_decide (is_Some apiError) in
        let log2 := (log1 ++ logStatus (status rw) isAPIErr err)%list in
        match err with
        | None => Some (mkOutcome (underlying rw) log2 1)
        | Some _ =>
            match apiError with
            | Some a =>
                match Error rw (StatusCode a) (Errors a) with
                | None => None
                | Some (rw', l) => Some (mkOutcome (underlying rw') (log2 ++ l)%list 1)
                end
            | None =>
                match Error rw StatusInternalServerError
                        [StatusText StatusInternalServerError] with
                | None => None
                | Some (rw', l) => Some (mkOutcome (underlying rw') (log2 ++ l)%list 1)
                end
            end
        end
  end.

(** [handler.ServeHTTP], lines 31-94; [None] when the call panics. *)
Definition ServeHTTP (h : HandlerWithContext) (w : W) (r : Request)
    : option (outcome W) :=
  if isMutating (Method r) then
    if negb (correctContentTypeFound r) then
      match Error w StatusUnsupportedMediaType [gateMessage] with
      | None => None
      | Some (w', l) => Some (mkOutcome w' l 0)
      end
    else serve h w r
  else serve h w r.

End Dispatcher.

Section Decode.

(** [json.NewDecoder(body).Decode(o)] for a target of type [T]: the decoded
    value, or the error of the decoder. *)
Context {T : Type}.
Variable Decode : list byte -> T + error.

(** [DecodeJSON], lines 128-134. *)
Definition DecodeJSON (body : list byte) : T + error :=
  match Decode body with
  | inr cause => inr (NewAPIError StatusBadRequest (Some cause) [])
  | inl o => inl o
  end.

End Decode.

End Restflex.
Export Restflex.

(** ** The legacy package [rest]: its errors and its [DecodeJSON] *)

Module Legacy.

(** The dynamic types of the errors of the legacy package: [errors.New],
    [*basicAPIError] and [*APIErrorWithCause], which embeds an [error] (the
    cause) and an [APIError]. *)
Inductive error : Type :=
| errorString (text : string)
| basicAPIError (statusCode : Z) (message : string)
| APIErrorWithCause (cause : error) (apiError : error).

Definition NewAPIErrorWithMessage (statusCode : Z) (message : string) : error :=
  basicAPIError statusCode message.

Definition NewAPIErrorWithCause (cause apiError : error) : error :=
  APIErrorWithCause cause apiError.

Definition ErrInvalidRequestBody : error :=
  NewAPIErrorWithMessage StatusBadRequest "expecting well formed JSON request body".

(** [StatusCode()] and [ErrorAPI()], on [*APIErrorWithCause] promoted from
    the embedded [APIError]; [None] on a value that has no such method. *)
Fixpoint StatusCode (e : error) : option Z :=
  match e with
  | errorString _ => None
  | basicAPIError s _ => Some s
  | APIErrorWithCause _ a => StatusCode a
  end.

Fixpoint ErrorAPI (e : error) : option string :=
  match e with
  | errorString _ => None
  | basicAPIError _ m => Some m
  | APIErrorWithCause _ a => ErrorAPI a
  end.

(** [DecodeJSON] of [rest.go], lines 165-171. *)
Definition DecodeJSON {T : Type} (Decode : list byte -> T + error)
    (body : list byte) : T + error :=
  match Decode body with
  | inr err => inr (NewAPIErrorWithCause err ErrInvalidRequestBody)
  | inl o => inl o
  end.

End Legacy.

(** ** [mime.ParseMediaType] on ASCII input

    The dispatcher is stated for any parser. This one follows the library on
    input made of ASCII bytes and serves to run the dispatcher on concrete
    requests. *)

Module Mime.

Definition isSpace (c : ascii) : bool :=
  existsb (Ascii.eqb c) ["009"; "010"; "011"; "012"; "013"; " "]%char.

Fixpoint trimLeft (s : string) : string :=
  match s with
  | String c s' => if isSpace c then trimLeft s' else s
  | EmptyString => EmptyString
  end.

Fixpoint trimRight (s : string) : string :=
  match s with
  | EmptyString => EmptyString
  | String c s' =>
      match trimRight s' with
      | EmptyString => if isSpace c then EmptyString else String c EmptyString
      | t => String c t
      end
  end.

Definition TrimSpace (s : string) : string := trimRight (trimLeft s).

Fixpoint ToLower (s : string) : string :=
  match s with
  | EmptyString => EmptyString
  | String c s' =>
      String (if isUpper c then ascii_of_N (N_of_ascii c + 32) else c) (ToLower s')
  end.

Definition isTSpecial (c : ascii) : bool :=
  existsb (Ascii.eqb c)
    ["("; ")"; "<"; ">"; "@"; ","; ";"; ":"; "092"; "034"; "/"; "["; "]"; "?"; "="]%char.

Definition isTokenChar (c : ascii) : bool :=
  let n := N_of_ascii c in
  ((32 <? n) && (n <? 127))%N && negb (isTSpecial c).

(** [consumeToken]: the longest prefix of token bytes, and what follows. *)
Fixpoint consumeToken (v : string) : string * string :=
  match v with
  | EmptyString => (EmptyString, EmptyString)
  | String c v' =>
      if isTokenChar c then
        let '(tok, rest) := consumeToken v' in (String c tok, rest)
      else (EmptyString, v)
  end.

(** [checkMediaTypeDisposition]: a token, or a token, a slash and a token. *)
Definition checkMediaTypeDisposition (s : string) : bool :=
  match consumeToken s with
  | (EmptyString, _) => false
  | (_, EmptyString) => true
  | (_, String c rest) =>
      if Ascii.eqb c "/" then
        match consumeToken rest with
        | (EmptyString, _) => false
        | (_, EmptyString) => true
        | (_, String _ _) => false
        end
      else false
  end.

(** [strings.Cut(v, ";")], keeping the separator at the head of the rest as
    [v[len(base):]] does. *)
Fixpoint cutBase (v : string) : string * string :=
  match v with
  | EmptyString => (EmptyString, EmptyString)
  | String c v' =>
      if Ascii.eqb c ";" then (EmptyString, v)
      else let '(base, rest) := cutBase v' in (String c base, rest)
  end.

(** The quoted-string branch of [consumeValue], after the opening quote. *)
Fixpoint scanQuoted (s : string) (buffer : string) : option (string * string) :=
  match s with
  | EmptyString => None
  | String c s' =>
      if Ascii.eqb c dquote then Some (buffer, s')
      else if Ascii.eqb c backslash then
        match s' with
        | String d s'' =>
            if isTSpecial d then scanQuoted s'' (buffer +:+ String d EmptyString)
            else scanQuoted s' (buffer +:+ String c EmptyString)
        | EmptyString => None
        end
      else if Ascii.eqb c "013" || Ascii.eqb c "010" then None
      else scanQuoted s' (buffer +:+ String c EmptyString)
  end.

Definition consumeValue (v : string) : string * string :=
  match v with
  | EmptyString => (EmptyString, EmptyString)
  | String c v' =>
      if Ascii.eqb c dquote then
        match scanQuoted v' EmptyString with
        | Some r => r
        | None => (EmptyString, v)
        end
      else consumeToken v
  end.

(** [consumeMediaParam]: [None] where the library returns an empty key. *)
Definition consumeMediaParam (v : string) : option (string * string * string) :=
  match trimLeft v with
  | String c rest =>
      if Ascii.eqb c ";" then
        let '(param, rest1) := consumeToken (trimLeft rest) in
        match ToLower param with
        | EmptyString => None
        | key =>
            match trimLeft rest1 with
            | String e rest2 =>
                if Ascii.eqb e "=" then
                  let rest3 := trimLeft rest2 in
                  let '(value, rest4) := consumeValue rest3 in
                  if String.eqb value EmptyString && String.eqb rest4 rest3
                  then None
                  else Some (key, value, rest4)
                else None
            | EmptyString => None
            end
        end
      else None
  | EmptyString => None
  end.

Fixpoint lookupParam (key : string) (params : list (string * string)) : option string :=
  match params with
  | [] => None
  | (k, v) :: rest => if String.eqb k key then Some v else lookupParam key rest
  end.

(** The parameter loop; [fuel] bounds its iterations, each of which consumes
    at least one byte. [true] when the loop ends without an error. *)
Fixpoint paramsOK (fuel : nat) (v : string) (params : list (string * string)) : bool :=
  match fuel with
  | O => true
  | S fuel' =>
      match trimLeft v with
      | EmptyString => true
      | v1 =>
          match consumeMediaParam v1 with
          | None => String.eqb (TrimSpace v1) ";"
          | Some (key, value, rest) =>
              match lookupParam key params with
              | Some old =>
                  if String.eqb old value
                  then paramsOK fuel' rest ((key, value) :: params)
                  else false
              | None => paramsOK fuel' rest ((key, value) :: params)
              end
          end
      end
  end.

(** The media type when the library returns a nil error. *)
Definition asciiParseMediaType (v : string) : option string :=
  let '(base, rest) := cutBase v in
  let mediatype := TrimSpace (ToLower base) in
  if checkMediaTypeDisposition mediatype then
    if paramsOK (S (String.length rest)) rest [] then Some mediatype else None
  else None.

(** [http.DetectContentType] on the bodies of the examples below, which are
    text. *)
Definition detectText (data : list byte) : string := "text/plain; charset=utf-8".

End Mime.

(** ** Concrete requests, handlers and decoders *)

Module Examples.

Import Mime.

(** The recorder as a sink, with the sniffing of text bodies. *)
Definition recorder : ResponseWriter ResponseRecorder :=
  Recorder_ResponseWriter detectText.

(** [httptest.NewRequest(method, "/", nil)], with an optional content
    type. *)
Definition newRequest (method : string) (contentType : option string) : Request :=
  {| Method := method;
     RequestHeader := match contentType with
                      | Some ct => {[ "Content-Type" := [ct] ]}
                      | None => ∅
                      end;
     RequestURI := "/";
     RequestBody := [] |}.

(** The handler of the test "default response is 501 not implemented". *)
Definition silentHandler : HandlerWithContext := fun _ => Return None.

(** The handler of the test "default response can be overridden by writing
    response status header". *)
Definition headerHandler : HandlerWithContext :=
  fun _ => CallWriteHeader StatusOK (Return None).

Definition okBody : list byte :=
  list_byte_of_string ("{" +:+ String dquote ("ok" +:+ String dquote ":true}")).

(** The handler of the test "default response can be overridden by writing
    response body". *)
Definition bodyHandler : HandlerWithContext :=
  fun _ => CallWrite okBody (fun _ _ => Return None).

(** The handler of the test "on error no default response". *)
Definition failingHandler (text : string) : HandlerWithContext :=
  fun _ => Return (Some (errorString text)).

(** The handler of the test "on API error no default response". *)
Definition badRequestHandler : HandlerWithContext :=
  fun _ => Return (Some (NewBadRequest ["something went wrong"])).

(** A handler that returns an API error built without a message, the way
    [EncodeJSON] and [DecodeJSON] build theirs. *)
Definition bareAPIErrorHandler : HandlerWithContext :=
  fun _ => Return (Some (NewAPIError StatusBadRequest
                           (Some (errorString "unexpected EOF")) [])).

(** A handler that commits the status 200 and then reports a failure. *)
Definition lateFailureHandler (err : error) : HandlerWithContext :=
  fun _ => CallWriteHeader StatusOK (Return (Some err)).

(** A sink whose connection is gone: every [Write] fails, and nothing is
    kept. *)
Definition closedSink : ResponseWriter unit := {|
  HeaderSet := fun _ _ w => w;
  Write := fun _ w => (w, (0, Some (errorString "write: broken pipe")));
  WriteHeader := fun _ w => Some w;
  Encode := fun _ w => (w, Some (errorString "write: broken pipe"))
|}.

(** A decoder for a target of type [bool]: the two literals, and a syntax
    error on anything else. *)
Definition decodeBool (body : list byte) : bool + error :=
  let text := string_of_list_byte body in
  if String.eqb text "true" then inl true
  else if String.eqb text "false" then inl false
  else inr (errorString "invalid character looking for beginning of value").

Definition legacyDecodeBool (body : list byte) : bool + Legacy.error :=
  let text := string_of_list_byte body in
  if String.eqb text "true" then inl true
  else if String.eqb text "false" then inl false
  else inr (Legacy.errorString "invalid character looking for beginning of value").

End Examples.

(** ** The wording of the specification, for comparison *)

Module Spec.

(** The message of a rejection by the content-type gate as the
    specification gives it: the two accepted types, quoted, joined by one
    " or ". *)
Definition gateMessage : string :=
  "POST, PUT, and PATCH methods require request content type of "
  +:+ Quote "application/json" +:+ " or "
  +:+ Quote "application/x-www-form-urlencoded".

(** One element of the [Content-Type] header names an accepted media type:
    it parses, and its type begins with an accepted prefix. *)
Definition acceptedPart (ParseMediaType : string -> option string) (v : string) : bool :=
  match ParseMediaType v with
  | Some t => existsb (HasPrefix t) acceptedContentTypes
  | None => false
  end.

(** The header of a request holds an accepted media type among its
    comma-separated elements. *)
Definition headerAccepted (ParseMediaType : string -> option string) (r : Request) : bool :=
  existsb (acceptedPart ParseMediaType)
    (Split (HeaderGet (RequestHeader r) "Content-Type") ","%char).

(** The content type the specification gives to every error body. *)
Definition errorContentType : string := "application/json; charset=utf-8".

(** The message the specification gives to a failed decoding. *)
Definition malformedBody : string := "malformed request body".

End Spec.

(** ** The calls of a handler, in order *)

Module Trace.

(** One call on the [http.ResponseWriter] a handler was given. *)
Inductive call : Type :=
| HeaderSetCall (key value : string)
| WriteHeaderCall (code : Z)
| WriteCall (b : list byte)
| EncodeCall (v : json).

(** The calls a handler body makes on a sink, up to its return or to the
    call that panics. *)
Fixpoint calls {W} `{!ResponseWriter W} (p : prog) (w : W) : list call :=
  match p with
  | Return _ => []
  | SetHeader k v next => HeaderSetCall k v :: calls next (HeaderSet k v w)
  | CallWriteHeader code next =>
      WriteHeaderCall code ::
      match WriteHeader code w with
      | None => []
      | Some w' => calls next w'
      end
  | CallWrite b next =>
      let '(w', (n, err)) := Write b w in WriteCall b :: calls (next n err) w'
  | CallEncode v next =>
      let '(w', err) := Encode v w in EncodeCall v :: calls (next err) w'
  end.

(** The code of the last [WriteHeader] among the calls, [init] without
    one. *)
Fixpoint lastCode (cs : list call) (init : Z) : Z :=
  match cs with
  | [] => init
  | WriteHeaderCall code :: rest => lastCode rest code
  | _ :: rest => lastCode rest init
  end.

(** A call that writes: any call but one on the header map. *)
Definition isWriteCall (c : call) : bool :=
  match c with
  | HeaderSetCall _ _ => false
  | _ => true
  end.

(** The status the first write among the calls commits: the code of a
    [WriteHeader], 200 for a [Write]; [None] when no call writes. *)
Fixpoint firstStatus (cs : list call) : option Z :=
  match cs with
  | [] => None
  | HeaderSetCall _ _ :: rest => firstStatus rest
  | WriteHeaderCall code :: _ => Some code
  | WriteCall _ :: _ => Some 200
  | EncodeCall _ :: _ => Some 200
  end.

End Trace.
Export Trace.

(** ** [errors.Is] and the [Is] method of an API error *)

Module ErrorsIs.

(** [apiError.Is], [error.go] lines 72-77: the type assertion
    [target.(APIError)]. *)
Definition apiError_Is (target : error) : bool :=
  match target with
  | apiErr _ => true
  | _ => false
  end.

(** [errors.Is(err, target)] for non-nil arguments. [same] is the comparison
    [err == target] of two interface values, which for the pointer types of
    this program is identity. Each error of the chain is compared with the
    target, then asked through its [Is] method when it has one, then
    unwrapped. *)
Fixpoint errorsIs (same : error -> error -> bool) (err target : error) : bool :=
  same err target
  || match err with
     | errorString _ => false
     | wrapError _ inner => errorsIs same inner target
     | apiErr (mkAPIError _ c _) =>
         apiError_Is target
         || match c with
            | Some c' => errorsIs same c' target
            | None => false
            end
     end.

(** The comparison when the target is no error of the chain. *)
Definition distinct (err target : error) : bool := false.

End ErrorsIs.
Export ErrorsIs.

(** ** The dispatcher of package [rest] without a timeout

    The variant of the dispatcher with the same gate, the same responder and
    the same classification as [restflex.go], its own write tracker and its
    own logging. *)

Module Rest.

(** What this variant prints and logs, by call site. *)
Inductive logEntry : Type :=
| Println (isAPIErr : bool) (status : Z)
| LogClientError (responseStatus : Z)
| LogServerError (responseStatus : Z) (err : option error)
| LogAPIError (apiError : apiError)
| LogEncodeFailure (errOnError : error).

Record outcome (W : Type) : Type := mkOutcome {
  sink : W;
  logged : list logEntry;
  invocations : nat
}.
Arguments mkOutcome {W} _ _ _.
Arguments sink {W} _.
Arguments logged {W} _.
Arguments invocations {W} _.

(** [responseWriter.WriteHeader] of this variant: the flag and the status
    are set first, then the call is passed on. *)
Definition responseWriter_WriteHeader {W} `{!ResponseWriter W}
    (st : Z) (w : responseWriter W) : option (responseWriter W) :=
  let w1 := {| underlying := underlying w; isWritten := true; status := st |} in
  match WriteHeader st (underlying w1) with
  | None => None
  | Some u =>
      Some {| underlying := u; isWritten := isWritten w1; status := status w1 |}
  end.

(** [responseWriter.Write] of this variant: the flag first. *)
Definition responseWriter_Write {W} `{!ResponseWriter W}
    (b : list byte) (w : responseWriter W) : responseWriter W * (Z * option error) :=
  let w1 := {| underlying := underlying w; isWritten := true; status := status w |} in
  let '(u, r) := Write b (underlying w1) in
  ({| underlying := u; isWritten := isWritten w1; status := status w1 |}, r).

Definition responseWriter_Encode {W} `{!ResponseWriter W}
    (v : json) (w : responseWriter W) : responseWriter W * option error :=
  let w1 := {| underlying := underlying w; isWritten := true; status := status w |} in
  let '(u, err) := Encode v (underlying w1) in
  ({| underlying := u; isWritten := isWritten w1; status := status w1 |}, err).

(** The tracked writer of this variant as a sink. *)
Definition tracked {W} `{!ResponseWriter W} : ResponseWriter (responseWriter W) := {|
  HeaderSet := responseWriter_HeaderSet;
  Write := responseWriter_Write;
  WriteHeader := responseWriter_WriteHeader;
  Encode := responseWriter_Encode
|}.

(** [EncodeJSON] of this variant. *)
Definition EncodeJSON {W} `{!ResponseWriter W} (w : W) (msg : json)
    : W * option error :=
  match Encode msg w with
  | (w', Some cause) =>
      (w', Some (NewAPIError StatusInternalServerError (Some cause) []))
  | (w', None) => (w', None)
  end.

(** [API.Error] of this variant. *)
Definition Error {W} `{!ResponseWriter W} (w : W) (statusCode : Z)
    (messages : list string) : option (W * list logEntry) :=
  match WriteHeader statusCode w with
  | None => None
  | Some w1 =>
      let w2 := HeaderSet "Content-Type" "application/json; charset=utf-8" w1 in
      let msg := NewErrorMessage messages in
      match EncodeJSON w2 (marshalErrorMessage msg) with
      | (w3, Some errOnError) => Some (w3, [LogEncodeFailure errOnError])
      | (w3, None) => Some (w3, [])
      end
  end.

(** The [switch] of this variant: a server error is logged whatever the
    error is, and an API error once more. *)
Definition logStatus (responseStatus : Z) (apiError : option apiError)
    (err : option error) : list logEntry :=
  if ((399 <? responseStatus) && (responseStatus <? 500))%Z then
    [LogClientError responseStatus]
  else if ((responseStatus =? 500) || (501 <? responseStatus))%Z then
    LogServerError responseStatus err ::
    match apiError with
    | Some a => [LogAPIError a]
    | None => []
    end
  else [].

Section Dispatcher.

Context {W : Type} `{!ResponseWriter W}.
Variable ParseMediaType : string -> option string.

(** The part of [API.ServeHTTP] after the gate. *)
Definition serve (h : HandlerWithContext) (w : W) (r : Request)
    : option (outcome W) :=
  let rw := newResponseWriter w in
  match @exec _ tracked (h r) rw with
  | None => None
  | Some (err, rw) =>
      if bool_decide (err = None) && negb (isWritten rw) then
        match @Error _ tracked rw StatusNotImplemented
                [StatusText StatusNotImplemented] with
        | None => None
        | Some (rw', l) => Some (mkOutcome (underlying rw') l 1)
        end
      else
        let apiError := As err in
        let isAPIErr := bool_decide (is_Some apiError) in
        let log1 := (Println isAPIErr (status rw)
                     :: logStatus (status rw) apiError err)%list in
        match err with
        | None => Some (mkOutcome (underlying rw) log1 1)
        | Some _ =>
            match apiError with
            | Some a =>
                match @Error _ tracked rw (StatusCode a) (Errors a) with
                | None => None
                | Some (rw', l) => Some (mkOutcome (underlying rw') (log1 ++ l)%list 1)
                end
            | None =>
                match @Error _ tracked rw StatusInternalServerError
                        [StatusText StatusInternalServerError] with
                | None => None
                | Some (rw', l) => Some (mkOutcome (underlying rw') (log1 ++ l)%list 1)
                end
            end
        end
  end.

(** [API.ServeHTTP] of this variant. Its gate is, line for line, the gate of
    [restflex.go]. *)
Definition ServeHTTP (h : HandlerWithContext) (w : W) (r : Request)
    : option (outcome W) :=
  if isMutating (Method r) then
    if negb (correctContentTypeFound ParseMediaType r) then
      match Error w StatusUnsupportedMediaType [gateMessage] with
      | None => None
      | Some (w', l) => Some (mkOutcome w' l 0)
      end
    else serve h w r
  else serve h w r.

End Dispatcher.

End Rest.

(** ** The responder and the errors of the legacy package [rest] *)

Module LegacyRest.

Import Legacy.

Definition ErrInternal : Legacy.error :=
  NewAPIErrorWithMessage StatusInternalServerError "internal server error".

(** [NewAPIError(statusCode)] of the legacy package: the message is the
    reason phrase of the code. *)
Definition NewAPIError (statusCode : Z) : Legacy.error :=
  basicAPIError statusCode (StatusText statusCode).

(** How the encoder sees the [ErrorMessage] of [rest.go], lines 138-140. *)
Definition marshalMessage (message : string) : json :=
  JObject [("message", JString message)].


(** What the legacy responder logs. *)
Inductive logEntry : Type :=
| LogEncodeFailure (errOnError : Legacy.error).

(** [EncodeJSON] of [rest.go], lines 156-162. The error of the sink, which
    is no error of the legacy package, is kept by its text. *)
Definition EncodeJSON {W} `{!ResponseWriter W} (w : W) (msg : json)
    : W * option Legacy.error :=
  match Encode msg w with
  | (w', Some err) =>
      (w', Some (NewAPIErrorWithCause
                   (Legacy.errorString (APIErrors.Error err)) ErrInternal))
  | (w', None) => (w', None)
  end.

(** [API.Error] of [rest.go], lines 143-153. *)
Definition Error {W} `{!ResponseWriter W} (w : W) (message : string)
    (statusCode : Z) : option (W * list logEntry) :=
  match WriteHeader statusCode w with
  | None => None
  | Some w1 =>
      let w2 := HeaderSet "Content-Type" "application/json; charset=utf-8" w1 in
      match EncodeJSON w2 (marshalMessage message) with
      | (w3, Some errOnError) => Some (w3, [LogEncodeFailure errOnError])
      | (w3, None) => Some (w3, [])
      end
  end.

End LegacyRest.

(** ** Handlers built from the helpers of the package *)

Module Handlers.

(** The arguments of the call of [h.Error] that follows the return of the
    handler ([restflex.go], lines 70-93), by the error returned. *)
Definition errorResponse (err : option error) : Z * list string :=
  match err with
  | None => (StatusNotImplemented, [StatusText StatusNotImplemented])
  | Some e =>
      match errorsAs e with
      | Some a => (StatusCode a, Errors a)
      | None => (StatusInternalServerError, [StatusText StatusInternalServerError])
      end
  end.

(** A handler whose body is [return EncodeJSON(w, v)]. *)
Definition encodeHandler (v : json) : HandlerWithContext :=
  fun _ =>
    CallEncode v (fun cause =>
      Return (match cause with
              | Some c => Some (NewAPIError StatusInternalServerError (Some c) [])
              | None => None
              end)).

(** A handler that sets a header, writes two status codes and fails. *)
Definition twoStatusHandler : HandlerWithContext :=
  fun _ =>
    SetHeader "X-Request-Id" "42"
      (CallWriteHeader 201
         (CallWriteHeader 404 (Return (Some (errorString "late failure"))))).

(** A handler that sets a header and returns an API error. *)
Definition headerThenErrorHandler : HandlerWithContext :=
  fun _ =>
    SetHeader "Retry-After" "120"
      (Return (Some (NewAPIError StatusTooManyRequests None ["slow down"]))).

(** A handler that writes bytes and then fails. *)
Definition partialBodyHandler : HandlerWithContext :=
  fun _ =>
    CallWrite (list_byte_of_string "partial")
      (fun _ _ => Return (Some (NewBadRequest ["invalid input"]))).

(** A handler that fails with an API error of the given cause. *)
Definition causeHandler (c : option error) : HandlerWithContext :=
  fun _ => Return (Some (NewAPIError StatusBadRequest c ["invalid input"])).

(** A line of the log that reports a status: one of the [switch] of lines
    77-84. *)
Definition isStatusLine (l : logEntry) : bool :=
  match l with
  | LogClientError _ | LogServerError _ _ => true
  | _ => false
  end.

(** A handler that returns an API error whose status is no status code. *)
Definition zeroStatusHandler : HandlerWithContext :=
  fun _ => Return (Some (NewAPIError 0 None ["no status"])).

End Handlers.
Export Handlers.

(** * Properties *)

(** ** Error messages survive encoding and decoding *)

Lemma stringsOf_map_JString (l : list string) :
  stringsOf (map JString l) = Some l.
Proof.
  induction l as [|s l IH]; cbn; [reflexivity|]. now rewrite IH.
Qed.

Lemma unmarshal_marshal (m : ErrorMessage) :
  unmarshalErrorMessage (marshalErrorMessage m) = Some m.
Proof.
  destruct m as [[|s l]]; cbn; [reflexivity|].
  now rewrite stringsOf_map_JString.
Qed.

(** ** The write tracker *)

Section TrackerFacts.

Context {W : Type} `{!ResponseWriter W}.

(** C10. [Write(b)] on the tracked writer hands [b] to the underlying sink,
    returns the byte count and the error of that sink as they are, and leaves
    [isWritten] true whatever the error is; the recorded status is kept. *)
Theorem responseWriter_Write_tracks (b : list byte) (w : responseWriter W) :
  snd (Write b w) = snd (Write b (underlying w))
  /\ isWritten (fst (Write b w)) = true
  /\ underlying (fst (Write b w)) = fst (Write b (underlying w))
  /\ status (fst (Write b w)) = status w.
Proof.
  cbn. unfold responseWriter_Write.
  destruct (Write b (underlying w)) as [u [i err]]. cbn. auto.
Qed.

(** The flag is set even when the sink reports a failure. *)
Lemma responseWriter_Write_failed (b : list byte) (w : responseWriter W) u i e :
  Write b (underlying w) = (u, (i, Some e)) ->
  Write b w = ({| underlying := u; isWritten := true; status := status w |}, (i, Some e)).
Proof.
  intros Hw. cbn. unfold responseWriter_Write. now rewrite Hw.
Qed.

(** A handler sees through the tracked writer exactly what it would see on
    the underlying sink, and the flag tells whether it made a write call. *)
Lemma exec_tracked (p : prog) :
  forall (rw : responseWriter W) err rw',
    exec p rw = Some (err, rw') ->
    exec p (underlying rw) = Some (err, underlying rw')
    /\ writeCalls p rw = writeCalls p (underlying rw)
    /\ isWritten rw' = isWritten rw || bool_decide (writeCalls p rw <> 0%nat).
Proof.
  induction p as [e|k v p IH|code p IH|b next IH|v next IH]; intros rw err rw' Hx; cbn in *.
  - inversion Hx; subst. now rewrite orb_false_r.
  - apply IH in Hx. cbn in Hx. exact Hx.
  - unfold responseWriter_WriteHeader in *.
    destruct (WriteHeader code (underlying rw)) as [u|]; [|discriminate].
    apply IH in Hx. cbn in Hx. destruct Hx as (Hx & Hc & Hw).
    rewrite Hx, Hc, Hw. now rewrite orb_true_r.
  - unfold responseWriter_Write in *.
    destruct (Write b (underlying rw)) as [u [i e]].
    apply IH in Hx. cbn in Hx. destruct Hx as (Hx & Hc & Hw).
    rewrite Hx, Hc, Hw. now rewrite orb_true_r.
  - unfold responseWriter_Encode in *.
    destruct (Encode v (underlying rw)) as [u e].
    apply IH in Hx. cbn in Hx. destruct Hx as (Hx & Hc & Hw).
    rewrite Hx, Hc, Hw. now rewrite orb_true_r.
Qed.

(** The other direction: a run on the underlying sink lifts to the tracked
    writer. *)
Lemma exec_lift (p : prog) :
  forall (rw : responseWriter W) err u,
    exec p (underlying rw) = Some (err, u) ->
    exists rw', exec p rw = Some (err, rw') /\ underlying rw' = u.
Proof.
  induction p as [e|k v p IH|code p IH|b next IH|v next IH]; intros rw err u Hx; cbn in *.
  - inversion Hx; subst. eauto.
  - apply (IH (responseWriter_HeaderSet k v rw)). exact Hx.
  - unfold responseWriter_WriteHeader.
    destruct (WriteHeader code (underlying rw)) as [u'|]; [|discriminate].
    apply (IH {| underlying := u'; isWritten := true; status := code |}). exact Hx.
  - unfold responseWriter_Write.
    destruct (Write b (underlying rw)) as [u' [i e]].
    apply (IH i e {| underlying := u'; isWritten := true; status := status rw |}). exact Hx.
  - unfold responseWriter_Encode.
    destruct (Encode v (underlying rw)) as [u' e].
    apply (IH e {| underlying := u'; isWritten := true; status := status rw |}). exact Hx.
Qed.

End TrackerFacts.

(** ** The error responder on the two sinks of the dispatcher *)

Section ErrorFacts.

Context {W : Type} `{!ResponseWriter W}.

(** On the tracked writer the responder does what it does on the underlying
    sink, and records the status and the write. *)
Lemma Error_tracked (rw : responseWriter W) (code : Z) (msgs : list string) :
  Error rw code msgs =
  match Error (underlying rw) code msgs with
  | None => None
  | Some (u, l) =>
      Some ({| underlying := u; isWritten := true; status := code |}, l)
  end.
Proof.
  unfold Error, EncodeJSON. cbn. unfold responseWriter_WriteHeader.
  destruct (WriteHeader code (underlying rw)) as [u|]; [|reflexivity].
  cbn. unfold responseWriter_Encode. cbn.
  destruct (Encode _ _) as [u' [e|]]; reflexivity.
Qed.

End ErrorFacts.

Section RecorderFacts.

Variable DetectContentType : list byte -> string.

Local Abbreviation sinkR := (Recorder_ResponseWriter DetectContentType).

Lemma Recorder_writeHeader_committed (sniffed : string) (w : ResponseRecorder) :
  wroteHeader w = true -> Recorder_writeHeader sniffed w = w.
Proof.
  intros Hw. unfold Recorder_writeHeader. now rewrite Hw.
Qed.

(** The first [WriteHeader] wins: once the header is written, the status
    code and the committed headers never change, whatever a handler does. *)
Lemma exec_recorder_committed (p : prog) :
  forall (w w' : ResponseRecorder) err,
    @exec _ sinkR p w = Some (err, w') ->
    wroteHeader w = true ->
    wroteHeader w' = true /\ Code w' = Code w /\ snapHeader w' = snapHeader w.
Proof.
  induction p as [e|k v p IH|code p IH|b next IH|v next IH]; intros w w' err Hx Hw; cbn in *.
  - inversion Hx; subst. auto.
  - apply IH in Hx; [|exact Hw]. exact Hx.
  - unfold Recorder_WriteHeader in Hx. rewrite Hw in Hx. now apply IH in Hx.
  - unfold Recorder_Write in Hx.
    rewrite Recorder_writeHeader_committed in Hx by exact Hw.
    apply IH in Hx; [exact Hx|exact Hw].
  - unfold Recorder_Encode in Hx.
    rewrite Recorder_writeHeader_committed in Hx by exact Hw.
    apply IH in Hx; [exact Hx|exact Hw].
Qed.

(** A handler that makes no write call leaves the status code, the body and
    the committed headers of the recorder as they were. *)
Lemma exec_recorder_silent (p : prog) :
  forall (w w' : ResponseRecorder) err,
    @exec _ sinkR p w = Some (err, w') ->
    @writeCalls _ sinkR p w = 0%nat ->
    wroteHeader w' = wroteHeader w /\ Code w' = Code w
    /\ Body w' = Body w /\ snapHeader w' = snapHeader w.
Proof.
  induction p as [e|k v p IH|code p IH|b next IH|v next IH]; intros w w' err Hx Hc; cbn in *.
  - inversion Hx; subst. auto.
  - apply IH in Hx; [|exact Hc]. exact Hx.
  - destruct (Recorder_WriteHeader code w); discriminate.
  - discriminate.
  - discriminate.
Qed.

(** The responder on a recorder whose header is not written yet: the status
    code is the one given, the body gains the error document, and the headers
    committed are those of before the call. *)
Lemma Error_recorder_fresh (w : ResponseRecorder) (code : Z) (msgs : list string) :
  wroteHeader w = false ->
  validCode code = true ->
  @Error _ sinkR w code msgs =
  Some ({| Code := code;
           HeaderMap := Header_Set (HeaderMap w) "Content-Type"
                          "application/json; charset=utf-8";
           Body := (Body w ++ [Doc (marshalErrorMessage (NewErrorMessage msgs))])%list;
           wroteHeader := true;
           snapHeader := Some (HeaderMap w) |}, []).
Proof.
  intros Hw Hv. unfold Error, EncodeJSON. cbn.
  unfold Recorder_WriteHeader. rewrite Hw, Hv. reflexivity.
Qed.

(** The responder on a recorder whose header is written: the status line is
    not replaced; the error document is appended to the body. *)
Lemma Error_recorder_committed (w : ResponseRecorder) (code : Z) (msgs : list string) :
  wroteHeader w = true ->
  @Error _ sinkR w code msgs =
  Some ({| Code := Code w;
           HeaderMap := Header_Set (HeaderMap w) "Content-Type"
                          "application/json; charset=utf-8";
           Body := (Body w ++ [Doc (marshalErrorMessage (NewErrorMessage msgs))])%list;
           wroteHeader := true;
           snapHeader := snapHeader w |}, []).
Proof.
  intros Hw. unfold Error, EncodeJSON. cbn.
  unfold Recorder_WriteHeader. rewrite Hw. cbn.
  unfold Recorder_Encode, Recorder_HeaderSet. cbn.
  rewrite Recorder_writeHeader_committed by exact Hw.
  unfold appendBody. cbn. now rewrite Hw.
Qed.

(** The headers of the response are those the map held before the
    responder was called: the content type it sets comes after the status
    line and stays on the map only. *)
Lemma Error_recorder_headers (w w' : ResponseRecorder) (code : Z)
    (msgs : list string) (l : list logEntry) :
  wroteHeader w = false ->
  validCode code = true ->
  @Error _ sinkR w code msgs = Some (w', l) ->
  RespHeader (Result w') = HeaderMap w
  /\ HeaderMap w' !! "Content-Type" = Some ["application/json; charset=utf-8"].
Proof.
  intros Hw Hv He.
  rewrite Error_recorder_fresh in He by assumption.
  inversion He; subst; clear He. cbn. split; [reflexivity|].
  unfold Header_Set. apply lookup_insert_eq.
Qed.

End RecorderFacts.

(** ** The content-type gate *)

Section GateFacts.

Variable ParseMediaType : string -> option string.

Lemma matchAccepted_existsb (t : string) (accepted : list string) (found : bool) :
  matchAccepted t accepted found = existsb (HasPrefix t) accepted || found.
Proof.
  induction accepted as [|a l IH]; cbn; [reflexivity|].
  destruct (HasPrefix t a); cbn; [reflexivity|exact IH].
Qed.

Lemma scanContentTypes_existsb (parts : list string) (found : bool) :
  scanContentTypes ParseMediaType parts found
  = found || existsb (Spec.acceptedPart ParseMediaType) parts.
Proof.
  revert found.
  induction parts as [|v l IH]; intros found; cbn [scanContentTypes existsb].
  - now rewrite orb_false_r.
  - unfold Spec.acceptedPart at 1. destruct (ParseMediaType v) as [t|].
    + rewrite IH, matchAccepted_existsb.
      destruct (existsb (HasPrefix t) acceptedContentTypes), found; reflexivity.
    + rewrite IH. reflexivity.
Qed.

End GateFacts.

(** ** The dispatcher on any sink *)

Section DispatcherFacts.

Context {W : Type} `{!ResponseWriter W}.
Variable ParseMediaType : string -> option string.

Lemma ServeHTTP_passes (h : HandlerWithContext) (w : W) (r : Request) :
  gatePasses ParseMediaType r = true ->
  ServeHTTP ParseMediaType h w r = serve h w r.
Proof.
  unfold gatePasses, ServeHTTP.
  destruct (isMutating (Method r)); cbn; [|reflexivity].
  now intros ->.
Qed.

Lemma ServeHTTP_rejects (h : HandlerWithContext) (w : W) (r : Request) :
  gatePasses ParseMediaType r = false ->
  ServeHTTP ParseMediaType h w r =
  match Error w StatusUnsupportedMediaType [gateMessage] with
  | None => None
  | Some (w', l) => Some (mkOutcome w' l 0)
  end.
Proof.
  unfold gatePasses, ServeHTTP.
  destruct (isMutating (Method r)); cbn; [|discriminate].
  now intros ->.
Qed.

(** The gate rejects exactly the requests of the three methods whose header
    names no accepted media type. *)
Lemma gatePasses_spec (r : Request) :
  gatePasses ParseMediaType r =
  negb (isMutating (Method r)) || Spec.headerAccepted ParseMediaType r.
Proof.
  unfold gatePasses, correctContentTypeFound, Spec.headerAccepted.
  now rewrite scanContentTypes_existsb.
Qed.

(** C4. A handler that makes a write call on the tracked writer and returns
    nil: the dispatcher returns without a call on the sink. The sink it
    leaves is the sink after the handler's own calls, the one the handler
    would have left had it been run on the sink directly. *)
Theorem written_response_untouched
    (h : HandlerWithContext) (w : W) (r : Request) (rw : responseWriter W) :
  gatePasses ParseMediaType r = true ->
  exec (h r) (newResponseWriter w) = Some (None, rw) ->
  writeCalls (h r) (newResponseWriter w) <> 0%nat ->
  exists out,
    ServeHTTP ParseMediaType h w r = Some out
    /\ sink out = underlying rw
    /\ exec (h r) w = Some (None, sink out)
    /\ invocations out = 1%nat.
Proof.
  intros Hg Hx Hc.
  rewrite ServeHTTP_passes by exact Hg.
  unfold serve. rewrite Hx.
  destruct (exec_tracked _ _ _ _ Hx) as (Hu & _ & Hw).
  cbn in Hw. rewrite bool_decide_eq_true_2 in Hw by exact Hc.
  rewrite Hw. cbn.
  eexists. split; [reflexivity|]. cbn. auto.
Qed.

(** Two handlers that leave the tracked writer in the same state and return
    errors that are not API errors, whatever their texts: the dispatcher
    leaves the same sink. *)
Lemma opaque_errors_same_sink
    (h1 h2 : HandlerWithContext) (w : W) (r : Request)
    (e1 e2 : error) (rw : responseWriter W) :
  exec (h1 r) (newResponseWriter w) = Some (Some e1, rw) ->
  exec (h2 r) (newResponseWriter w) = Some (Some e2, rw) ->
  errorsAs e1 = None ->
  errorsAs e2 = None ->
  sink <$> ServeHTTP ParseMediaType h1 w r = sink <$> ServeHTTP ParseMediaType h2 w r.
Proof.
  intros H1 H2 A1 A2.
  destruct (gatePasses ParseMediaType r) eqn:Hg.
  - rewrite !ServeHTTP_passes by exact Hg.
    unfold serve. rewrite H1, H2. cbn. rewrite A1, A2.
    destruct (Error rw StatusInternalServerError _) as [[rw' l]|]; reflexivity.
  - rewrite !ServeHTTP_rejects by exact Hg. reflexivity.
Qed.

End DispatcherFacts.

(** ** The dispatcher on the recorder: what the client reads *)

Section ClientView.

Variable DetectContentType : list byte -> string.
Variable ParseMediaType : string -> option string.

Local Abbreviation sinkR := (Recorder_ResponseWriter DetectContentType).
Local Abbreviation ServeHTTPR := (@ServeHTTP _ sinkR ParseMediaType).
Local Abbreviation execT := (@exec _ (@responseWriter_ResponseWriter _ sinkR)).
Local Abbreviation writeCallsT :=
  (@writeCalls _ (@responseWriter_ResponseWriter _ sinkR)).

(** What a handler that made no write call leaves of a recorder that was not
    written: still not written, still an empty body. *)
Lemma silent_run_recorder (p : prog) (w : ResponseRecorder)
    (err : option error) (rw : responseWriter ResponseRecorder) :
  wroteHeader w = false ->
  Body w = [] ->
  execT p (newResponseWriter w) = Some (err, rw) ->
  writeCallsT p (newResponseWriter w) = 0%nat ->
  isWritten rw = false
  /\ wroteHeader (underlying rw) = false
  /\ Body (underlying rw) = [].
Proof.
  intros Hw Hb Hx Hc.
  destruct (@exec_tracked _ sinkR _ _ _ _ Hx) as (Hu & Hcu & Hf).
  rewrite Hc in Hf. cbn in Hf.
  rewrite Hc in Hcu. symmetry in Hcu.
  destruct (exec_recorder_silent _ _ _ _ _ Hu Hcu) as (H1 & _ & H3 & _).
  cbn in H1, H3. rewrite H1, H3. auto.
Qed.

(** C2. A handler that returns nil without a write call on the tracked
    writer: the client reads the status 501 and one error message, the
    reason phrase of 501, "Not Implemented". *)
Theorem silent_handler_not_implemented
    (h : HandlerWithContext) (w : ResponseRecorder) (r : Request)
    (rw : responseWriter ResponseRecorder) :
  wroteHeader w = false ->
  Body w = [] ->
  gatePasses ParseMediaType r = true ->
  execT (h r) (newResponseWriter w) = Some (None, rw) ->
  writeCallsT (h r) (newResponseWriter w) = 0%nat ->
  exists out,
    ServeHTTPR h w r = Some out
    /\ RespStatusCode (Result (sink out)) = 501
    /\ decodedErrors (RespBody (Result (sink out))) = Some ["Not Implemented"]
    /\ StatusText 501 = "Not Implemented"
    /\ invocations out = 1%nat.
Proof.
  intros Hw Hb Hg Hx Hc.
  destruct (silent_run_recorder _ _ _ _ Hw Hb Hx Hc) as (Hf & Hw' & Hb').
  rewrite ServeHTTP_passes by exact Hg.
  unfold serve. rewrite Hx, Hf. cbn [bool_decide negb andb].
  rewrite bool_decide_eq_true_2 by reflexivity. cbn [andb].
  rewrite Error_tracked, Error_recorder_fresh by (exact Hw' || reflexivity).
  eexists. split; [reflexivity|]. cbn. rewrite Hb'. cbn. auto.
Qed.

(** C1, as amended. A handler that returns an error which is or wraps an API
    error of a valid status code [S] and messages [M], without a write call
    on the tracked writer: the client reads the status [S] and the message
    list [M]. An empty [M] is read as the empty list. *)
Theorem api_error_response
    (h : HandlerWithContext) (w : ResponseRecorder) (r : Request)
    (rw : responseWriter ResponseRecorder) (e : error) (a : apiError) :
  wroteHeader w = false ->
  Body w = [] ->
  gatePasses ParseMediaType r = true ->
  execT (h r) (newResponseWriter w) = Some (Some e, rw) ->
  writeCallsT (h r) (newResponseWriter w) = 0%nat ->
  errorsAs e = Some a ->
  validCode (StatusCode a) = true ->
  exists out,
    ServeHTTPR h w r = Some out
    /\ RespStatusCode (Result (sink out)) = StatusCode a
    /\ decodedErrors (RespBody (Result (sink out))) = Some (Errors a)
    /\ invocations out = 1%nat.
Proof.
  intros Hw Hb Hg Hx Hc Ha Hv.
  destruct (silent_run_recorder _ _ _ _ Hw Hb Hx Hc) as (Hf & Hw' & Hb').
  rewrite ServeHTTP_passes by exact Hg.
  unfold serve. rewrite Hx. cbn. rewrite Ha.
  rewrite Error_tracked, Error_recorder_fresh by (exact Hw' || exact Hv).
  eexists. split; [reflexivity|].
  cbn -[marshalErrorMessage unmarshalErrorMessage]. rewrite Hb'.
  cbn -[marshalErrorMessage unmarshalErrorMessage].
  assert (Hnz : (StatusCode a =? 0)%Z = false).
  { unfold validCode in Hv. apply andb_true_iff in Hv. lia. }
  rewrite Hnz, unmarshal_marshal. cbn. auto.
Qed.

(** C3, as amended. A handler that returns an error which neither is nor
    wraps an API error. The text of the error does not reach the client: the
    response is the one read for any other such error returned from the same
    state of the tracked writer. When the handler made no write call, the
    client reads the status 500 and the one message "Internal Server
    Error". *)
Theorem opaque_error_response
    (h1 h2 : HandlerWithContext) (w : ResponseRecorder) (r : Request)
    (rw : responseWriter ResponseRecorder) (e1 e2 : error) :
  gatePasses ParseMediaType r = true ->
  execT (h1 r) (newResponseWriter w) = Some (Some e1, rw) ->
  execT (h2 r) (newResponseWriter w) = Some (Some e2, rw) ->
  errorsAs e1 = None ->
  errorsAs e2 = None ->
  exists out1 out2,
    ServeHTTPR h1 w r = Some out1
    /\ ServeHTTPR h2 w r = Some out2
    /\ Result (sink out1) = Result (sink out2)
    /\ (wroteHeader w = false ->
        Body w = [] ->
        writeCallsT (h1 r) (newResponseWriter w) = 0%nat ->
        RespStatusCode (Result (sink out1)) = 500
        /\ decodedErrors (RespBody (Result (sink out1))) = Some ["Internal Server Error"]).
Proof.
  intros Hg H1 H2 A1 A2.
  rewrite !ServeHTTP_passes by exact Hg.
  unfold serve. rewrite H1, H2. cbn. rewrite A1, A2.
  rewrite Error_tracked.
  destruct (wroteHeader (underlying rw)) eqn:Hwr.
  - rewrite Error_recorder_committed by exact Hwr.
    do 2 eexists. split; [reflexivity|]. split; [reflexivity|].
    split; [reflexivity|].
    intros Hw Hb Hc.
    destruct (silent_run_recorder _ _ _ _ Hw Hb H1 Hc) as (_ & Hw' & _).
    congruence.
  - rewrite Error_recorder_fresh by (exact Hwr || reflexivity).
    do 2 eexists. split; [reflexivity|]. split; [reflexivity|].
    split; [reflexivity|].
    intros Hw Hb Hc.
    destruct (silent_run_recorder _ _ _ _ Hw Hb H1 Hc) as (_ & _ & Hb').
    cbn. rewrite Hb'. cbn. auto.
Qed.

(** C5. A request of method POST, PUT or PATCH whose [Content-Type] header
    names no accepted media type among its comma-separated elements (an
    absent header and elements that do not parse included): the client reads
    the status 415, and the outcome is the same for every handler, none of
    which is called. *)
Theorem gate_rejects_unaccepted
    (w : ResponseRecorder) (r : Request) :
  Method r = MethodPost \/ Method r = MethodPut \/ Method r = MethodPatch ->
  Spec.headerAccepted ParseMediaType r = false ->
  wroteHeader w = false ->
  exists out,
    (forall h : HandlerWithContext, ServeHTTPR h w r = Some out)
    /\ RespStatusCode (Result (sink out)) = 415
    /\ invocations out = 0%nat.
Proof.
  intros Hm Ha Hw.
  assert (Hm' : isMutating (Method r) = true).
  { destruct Hm as [-> | [-> | ->]]; reflexivity. }
  assert (Hg : gatePasses ParseMediaType r = false).
  { rewrite gatePasses_spec, Hm', Ha. reflexivity. }
  eexists. split.
  - intros h. rewrite ServeHTTP_rejects by exact Hg.
    rewrite Error_recorder_fresh by (exact Hw || reflexivity). reflexivity.
  - cbn. auto.
Qed.

End ClientView.

(** ** Decoding a request body *)

(** C9, as amended. When the decoder fails, [DecodeJSON] returns an API error
    of status 400 that wraps the failure of the decoder. In [restflex.go] it
    carries no message of its own: its message list is empty and its text is
    the text of the cause. In [rest.go] its message is the one of
    [ErrInvalidRequestBody]. When the decoder succeeds, both return nil. *)
Theorem DecodeJSON_outcome {T : Type}
    (Decode : list byte -> T + error)
    (LegacyDecode : list byte -> T + Legacy.error) (body : list byte) :
  match Decode body with
  | inr cause =>
      exists a,
        DecodeJSON Decode body = inr (apiErr a)
        /\ StatusCode a = 400
        /\ Unwrap a = Some cause
        /\ Errors a = []
        /\ APIErrors.Error (apiErr a) = APIErrors.Error cause
  | inl o => DecodeJSON Decode body = inl o
  end
  /\ match LegacyDecode body with
     | inr cause =>
         exists e,
           Legacy.DecodeJSON LegacyDecode body = inr e
           /\ e = Legacy.APIErrorWithCause cause Legacy.ErrInvalidRequestBody
           /\ Legacy.StatusCode e = Some 400
           /\ Legacy.ErrorAPI e = Some "expecting well formed JSON request body"
     | inl o => Legacy.DecodeJSON LegacyDecode body = inl o
     end.
Proof.
  unfold DecodeJSON, Legacy.DecodeJSON. split.
  - destruct (Decode body) as [o|cause]; [reflexivity|].
    eexists. split; [reflexivity|]. cbn. auto.
  - destruct (LegacyDecode body) as [o|cause]; [reflexivity|].
    eexists. split; [reflexivity|]. cbn. auto.
Qed.

(** C9 as stated fails: on a body that does not decode, neither variant
    carries the message "malformed request body". *)
Lemma DecodeJSON_message_counterexample :
  let body := list_byte_of_string "nope" in
  (exists a,
     DecodeJSON Examples.decodeBool body = inr (apiErr a)
     /\ StatusCode a = 400
     /\ Errors a = []
     /\ Errors a <> [Spec.malformedBody]
     /\ APIErrors.Error (apiErr a) <> Spec.malformedBody)
  /\ (exists e,
        Legacy.DecodeJSON Examples.legacyDecodeBool body = inr e
        /\ Legacy.ErrorAPI e <> Some Spec.malformedBody).
Proof.
  cbn. split.
  - eexists. split; [reflexivity|]. cbn. repeat split; discriminate.
  - eexists. split; [reflexivity|]. cbn. discriminate.
Qed.

(** ** The dispatcher on concrete requests *)

Section Runs.

Import Examples Mime.

Local Abbreviation run := (@ServeHTTP _ recorder asciiParseMediaType).
Local Abbreviation tracked := (@responseWriter_ResponseWriter _ recorder).

(** C6. The code departs from the claim: for a POST request without a
    content type the message of the rejection is the message of the
    specification followed by " or ", the loop of lines 53-58 adding the
    separator after the last accepted type as well. *)
Theorem gate_message_trailing_separator :
  gateMessage = Spec.gateMessage +:+ " or "
  /\ gateMessage <> Spec.gateMessage
  /\ exists out,
       run silentHandler NewRecorder (newRequest "POST" None) = Some out
       /\ RespStatusCode (Result (sink out)) = 415
       /\ decodedErrors (RespBody (Result (sink out)))
          = Some [Spec.gateMessage +:+ " or "].
Proof.
  split; [reflexivity|]. split; [vm_compute; discriminate|].
  eexists. split; [vm_compute; reflexivity|]. split; reflexivity.
Qed.

(** C8. The code departs from the claim: the responder writes the status
    line before it sets the content type, so the header is set on the map of
    the recorder but is not among the headers of the response. Shown on the
    501 response to a GET request and on the 415 response of the gate. *)
Theorem error_response_content_type_not_sent :
  (exists out,
     run silentHandler NewRecorder (newRequest "GET" None) = Some out
     /\ RespStatusCode (Result (sink out)) = 501
     /\ HeaderMap (sink out) !! "Content-Type" = Some [Spec.errorContentType]
     /\ RespHeader (Result (sink out)) !! "Content-Type" = None)
  /\ (exists out,
        run silentHandler NewRecorder (newRequest "POST" None) = Some out
        /\ RespStatusCode (Result (sink out)) = 415
        /\ HeaderMap (sink out) !! "Content-Type" = Some [Spec.errorContentType]
        /\ RespHeader (Result (sink out)) !! "Content-Type" = None).
Proof.
  split; eexists; (split; [vm_compute; reflexivity|]);
    repeat split; vm_compute; reflexivity.
Qed.

(** C1 as stated fails twice. An API error without messages is answered with
    an empty message list, not with the reason phrase of its status; and an
    API error returned after the handler wrote the status 200 leaves the
    status 200. *)
Lemma api_error_counterexample :
  (exists out,
     run bareAPIErrorHandler NewRecorder (newRequest "GET" None) = Some out
     /\ RespStatusCode (Result (sink out)) = 400
     /\ decodedErrors (RespBody (Result (sink out))) = Some []
     /\ decodedErrors (RespBody (Result (sink out))) <> Some [StatusText 400])
  /\ (exists out,
        run (lateFailureHandler (NewBadRequest ["something went wrong"]))
          NewRecorder (newRequest "GET" None) = Some out
        /\ RespStatusCode (Result (sink out)) = 200
        /\ RespStatusCode (Result (sink out)) <> 400).
Proof.
  split; eexists; (split; [vm_compute; reflexivity|]);
    repeat split; try (vm_compute; reflexivity); vm_compute; discriminate.
Qed.

(** C3 as stated fails: an error that is not an API error, returned after
    the handler wrote the status 200, leaves the status 200. *)
Lemma opaque_error_counterexample :
  exists out,
    run (lateFailureHandler (errorString "boom")) NewRecorder (newRequest "GET" None)
    = Some out
    /\ errorsAs (errorString "boom") = None
    /\ RespStatusCode (Result (sink out)) = 200
    /\ RespStatusCode (Result (sink out)) <> 500.
Proof.
  eexists. split; [vm_compute; reflexivity|].
  repeat split; try (vm_compute; reflexivity); vm_compute; discriminate.
Qed.

(** C2 on the handler of the test "default response is 501 not
    implemented". *)
Lemma silent_handler_not_implemented_witness :
  exists out,
    run silentHandler NewRecorder (newRequest "GET" None) = Some out
    /\ RespStatusCode (Result (sink out)) = 501
    /\ decodedErrors (RespBody (Result (sink out))) = Some ["Not Implemented"]
    /\ StatusText 501 = "Not Implemented"
    /\ invocations out = 1%nat.
Proof.
  apply (silent_handler_not_implemented detectText asciiParseMediaType
           silentHandler NewRecorder (newRequest "GET" None)
           (newResponseWriter NewRecorder)); reflexivity.
Defined.

(** C1, as amended, on the handler of the test "on API error no default
    response". *)
Lemma api_error_response_witness :
  exists out,
    run badRequestHandler NewRecorder (newRequest "GET" None) = Some out
    /\ RespStatusCode (Result (sink out)) = 400
    /\ decodedErrors (RespBody (Result (sink out))) = Some ["something went wrong"]
    /\ invocations out = 1%nat.
Proof.
  apply (api_error_response detectText asciiParseMediaType
           badRequestHandler NewRecorder (newRequest "GET" None)
           (newResponseWriter NewRecorder)
           (NewBadRequest ["something went wrong"])
           (mkAPIError 400 None ["something went wrong"])); reflexivity.
Defined.

(** C3, as amended, on two handlers that fail with different texts. *)
Lemma opaque_error_response_witness :
  exists out1 out2,
    run (failingHandler "mocked error in test case") NewRecorder
      (newRequest "GET" None) = Some out1
    /\ run (failingHandler "another text") NewRecorder
         (newRequest "GET" None) = Some out2
    /\ Result (sink out1) = Result (sink out2)
    /\ RespStatusCode (Result (sink out1)) = 500
    /\ decodedErrors (RespBody (Result (sink out1))) = Some ["Internal Server Error"].
Proof.
  destruct (opaque_error_response detectText asciiParseMediaType
              (failingHandler "mocked error in test case")
              (failingHandler "another text")
              NewRecorder (newRequest "GET" None)
              (newResponseWriter NewRecorder)
              (errorString "mocked error in test case")
              (errorString "another text")
              eq_refl eq_refl eq_refl eq_refl eq_refl)
    as (out1 & out2 & H1 & H2 & H3 & H4).
  exists out1, out2.
  destruct (H4 eq_refl eq_refl eq_refl) as [H5 H6].
  repeat split; assumption.
Defined.

(** C4 on the handler of the test "default response can be overridden by
    writing response body". *)
Lemma written_response_untouched_witness :
  exists out,
    run bodyHandler NewRecorder (newRequest "GET" None) = Some out
    /\ @exec _ recorder (bodyHandler (newRequest "GET" None)) NewRecorder
       = Some (None, sink out)
    /\ RespStatusCode (Result (sink out)) = 200
    /\ RespBody (Result (sink out)) = [Raw okBody]
    /\ invocations out = 1%nat.
Proof.
  destruct (@written_response_untouched _ recorder asciiParseMediaType
              bodyHandler NewRecorder (newRequest "GET" None)
              (mkResponseWriter
                 (fst (@Write _ recorder okBody NewRecorder)) true StatusOK)
              eq_refl eq_refl (fun H => O_S _ (eq_sym H)))
    as (out & H1 & H2 & H3 & H4).
  exists out. rewrite H2. cbn [underlying].
  rewrite H2 in H3. cbn [underlying] in H3.
  repeat split; assumption || reflexivity.
Defined.

(** C5 on the requests of the tests "POST without content type" and, with a
    header that does not parse, on a PUT request. *)
Lemma gate_rejects_unaccepted_witness :
  (exists out,
     (forall h : HandlerWithContext,
        run h NewRecorder (newRequest "POST" None) = Some out)
     /\ RespStatusCode (Result (sink out)) = 415
     /\ invocations out = 0%nat)
  /\ (exists out,
        (forall h : HandlerWithContext,
           run h NewRecorder (newRequest "PUT" (Some "text/html, ;=")) = Some out)
        /\ RespStatusCode (Result (sink out)) = 415
        /\ invocations out = 0%nat).
Proof.
  split.
  - apply (gate_rejects_unaccepted detectText asciiParseMediaType
             NewRecorder (newRequest "POST" None));
      [left; reflexivity | reflexivity | reflexivity].
  - apply (gate_rejects_unaccepted detectText asciiParseMediaType
             NewRecorder (newRequest "PUT" (Some "text/html, ;=")));
      [right; left; reflexivity | reflexivity | reflexivity].
Defined.

(** *** The tests of the repository, run on the model *)

(** [Test_default_response_is_HTTP_501]: the status of each case. *)
Example test_default_response_statuses :
  map (fun h => RespStatusCode <$> (Result <$> (sink <$>
         run h NewRecorder (newRequest "GET" None))))
    [silentHandler; headerHandler; bodyHandler;
     failingHandler "mocked error in test case"; badRequestHandler;
     (fun _ => Return (Some (NewAPIError StatusInternalServerError
                               (Some (errorString "test server error"))
                               ["custom error message"])))]
  = [Some 501; Some 200; Some 200; Some 500; Some 400; Some 500].
Proof. vm_compute. reflexivity. Qed.

(** [Test_request_with_body_has_JSON_content_type]: which requests reach the
    handler. *)
Example test_content_type_gate :
  map (fun '(method, contentType) =>
         gatePasses asciiParseMediaType (newRequest method contentType))
    [("POST", None); ("PUT", None); ("PATCH", None);
     ("POST", Some "application/json");
     ("POST", Some "application/json; charset=utf-8");
     ("PUT", Some "application/json");
     ("PATCH", Some "application/json");
     ("GET", None);
     ("GET", Some "application/json");
     ("POST", Some "application/x-www-form-urlencoded");
     ("PUT", Some "application/x-www-form-urlencoded");
     ("PATCH", Some "application/x-www-form-urlencoded")]
  = [false; false; false; true; true; true; true; true; true; true; true; true].
Proof. vm_compute. reflexivity. Qed.

(** [TestResponseWriter_WriteHeader] and [TestResponseWriter_Write]. *)
Example test_responseWriter :
  (isWritten <$> @WriteHeader _ tracked StatusOK
                   (mkResponseWriter NewRecorder false 0)) = Some true
  /\ (status <$> @WriteHeader _ tracked StatusOK
                   (mkResponseWriter NewRecorder false 0)) = Some StatusOK
  /\ isWritten (fst (@Write _ tracked [] (mkResponseWriter NewRecorder false 0)))
     = true.
Proof. repeat split. Qed.

(** On a sink that fails every [Write], the tracked writer still records the
    write and passes the failure on. *)
Example closedSink_Write (b : list byte) :
  @Write _ (@responseWriter_ResponseWriter _ closedSink) b
    (mkResponseWriter tt false StatusOK)
  = (mkResponseWriter tt true StatusOK,
     (0, Some (errorString "write: broken pipe"))).
Proof. reflexivity. Qed.

End Runs.

(** * Further properties of the code *)

(** ** The write tracker over whole runs *)

(** A run makes a call that writes exactly when its count of such calls is
    not zero. *)
Lemma calls_writeCalls {W : Type} `{!ResponseWriter W} (p : prog) :
  forall w : W,
    existsb isWriteCall (calls p w) = bool_decide (writeCalls p w <> 0%nat).
Proof.
  induction p as [e|k v p IH|code p IH|b next IH|v next IH]; intros w; cbn.
  - reflexivity.
  - apply IH.
  - destruct (WriteHeader code w); reflexivity.
  - destruct (Write b w) as [w' [n e]]. reflexivity.
  - destruct (Encode v w) as [w' e]. reflexivity.
Qed.

Section TrackerRuns.

Context {W : Type} `{!ResponseWriter W}.

(** X1. The tracked writer is transparent: a handler run through it returns
    what it returns on the underlying sink, panics where it panics there,
    and leaves the underlying sink in the same state. *)
Theorem tracker_transparent (p : prog) (rw : responseWriter W) :
  exec p (underlying rw)
  = (fun '(err, rw') => (err, underlying rw')) <$> exec p rw.
Proof.
  destruct (exec p rw) as [[err rw']|] eqn:Hx; cbn.
  - now destruct (exec_tracked _ _ _ _ Hx) as (Hu & _).
  - destruct (exec p (underlying rw)) as [[err u]|] eqn:Hu; [|reflexivity].
    destruct (exec_lift _ _ _ _ Hu) as (rw' & Hx' & _). congruence.
Qed.

(** X2. After a run that returned, [isWritten] is true exactly when it was true
    before or the handler made a call that writes. Calls on the header map
    do not set it, and no call resets it. *)
Theorem isWritten_exact (p : prog) (rw rw' : responseWriter W) (err : option error) :
  exec p rw = Some (err, rw') ->
  isWritten rw' = isWritten rw || existsb isWriteCall (calls p rw).
Proof.
  intros Hx. destruct (exec_tracked _ _ _ _ Hx) as (_ & _ & Hf).
  now rewrite calls_writeCalls.
Qed.

(** After a run that returned, the status of the tracked writer is the code
    of the last [WriteHeader] call of the handler, whether the sink took it
    or not. *)
Lemma status_lastCode (p : prog) :
  forall (rw rw' : responseWriter W) (err : option error),
    exec p rw = Some (err, rw') ->
    status rw' = lastCode (calls p rw) (status rw).
Proof.
  induction p as [e|k v p IH|code p IH|b next IH|v next IH];
    intros rw rw' err Hx; cbn in *.
  - now inversion Hx.
  - apply IH in Hx. exact Hx.
  - unfold responseWriter_WriteHeader in *.
    destruct (WriteHeader code (underlying rw)) as [u|]; [|discriminate].
    apply IH in Hx. exact Hx.
  - unfold responseWriter_Write in *.
    destruct (Write b (underlying rw)) as [u [i e]].
    apply IH in Hx. exact Hx.
  - unfold responseWriter_Encode in *.
    destruct (Encode v (underlying rw)) as [u e].
    apply IH in Hx. exact Hx.
Qed.

End TrackerRuns.

(** The calls of a run are the same through the tracked writer and on the
    underlying sink. *)
Lemma calls_tracked {W : Type} `{!ResponseWriter W} (p : prog) :
  forall rw : responseWriter W, calls p rw = calls p (underlying rw).
Proof.
  induction p as [e|k v p IH|code p IH|b next IH|v next IH]; intros rw; cbn.
  - reflexivity.
  - now rewrite IH.
  - unfold responseWriter_WriteHeader.
    destruct (WriteHeader code (underlying rw)) as [u|]; [|reflexivity].
    now rewrite IH.
  - unfold responseWriter_Write.
    destruct (Write b (underlying rw)) as [u [i e]]. now rewrite IH.
  - unfold responseWriter_Encode.
    destruct (Encode v (underlying rw)) as [u e]. now rewrite IH.
Qed.

Lemma firstStatus_isWriteCall (cs : list call) :
  bool_decide (is_Some (firstStatus cs)) = existsb isWriteCall cs.
Proof.
  induction cs as [|[k v|code|b|v] cs IH]; cbn; try exact IH; try reflexivity.
Qed.

(** ** Runs on the recorder *)

Section RecorderRuns.

Variable DetectContentType : list byte -> string.

Local Abbreviation sinkR := (Recorder_ResponseWriter DetectContentType).
Local Abbreviation execT := (@exec _ (@responseWriter_ResponseWriter _ sinkR)).
Local Abbreviation callsT := (@calls _ (@responseWriter_ResponseWriter _ sinkR)).

(** On a recorder whose header is not written, the first call that writes
    fixes the status code: the code of a [WriteHeader], 200 for a write of
    bytes or of a document. *)
Lemma recorder_firstStatus (p : prog) :
  forall (w w' : ResponseRecorder) (err : option error),
    @exec _ sinkR p w = Some (err, w') ->
    wroteHeader w = false ->
    Code w' = default (Code w) (firstStatus (@calls _ sinkR p w))
    /\ wroteHeader w' = bool_decide (is_Some (firstStatus (@calls _ sinkR p w))).
Proof.
  induction p as [e|k v p IH|code p IH|b next IH|v next IH];
    intros w w' err Hx Hw; cbn in *.
  - inversion Hx; subst. rewrite Hw. split; reflexivity.
  - apply IH in Hx; [exact Hx|exact Hw].
  - unfold Recorder_WriteHeader in *. rewrite Hw in *.
    destruct (validCode code); [|discriminate].
    apply exec_recorder_committed in Hx; [|reflexivity].
    cbn in Hx. destruct Hx as (H1 & H2 & _). rewrite H1, H2.
    split; reflexivity.
  - apply exec_recorder_committed in Hx.
    + destruct Hx as (H1 & H2 & _). rewrite H1, H2. cbn.
      unfold Recorder_writeHeader. rewrite Hw. split; reflexivity.
    + cbn. unfold Recorder_writeHeader. now rewrite Hw.
  - apply exec_recorder_committed in Hx.
    + destruct Hx as (H1 & H2 & _). rewrite H1, H2. cbn.
      unfold Recorder_writeHeader. rewrite Hw. split; reflexivity.
    + cbn. unfold Recorder_writeHeader. now rewrite Hw.
Qed.

(** X3. The status a client reads and the status the tracked writer records can
    differ. After a handler ran on a recorder that was not written, the
    status code of the recorder is the one committed by the first call that
    writes, and the status of the tracked writer is the code of the last
    [WriteHeader] call. *)
Theorem status_first_write_last_header
    (p : prog) (w : ResponseRecorder) (rw : responseWriter ResponseRecorder)
    (err : option error) :
  wroteHeader w = false ->
  execT p (newResponseWriter w) = Some (err, rw) ->
  Code (underlying rw) = default (Code w) (firstStatus (callsT p (newResponseWriter w)))
  /\ status rw = lastCode (callsT p (newResponseWriter w)) StatusOK.
Proof.
  intros Hw Hx. split.
  - destruct (@exec_tracked _ sinkR _ _ _ _ Hx) as (Hu & _).
    rewrite (@calls_tracked _ sinkR).
    exact (proj1 (recorder_firstStatus _ _ _ _ Hu Hw)).
  - exact (@status_lastCode _ sinkR _ _ _ _ Hx).
Qed.

(** The flag of the tracked writer and the recorder's own record of the
    header, after a run from a recorder that was not written. *)
Lemma tracked_flag_recorder
    (p : prog) (w : ResponseRecorder) (rw : responseWriter ResponseRecorder)
    (err : option error) :
  wroteHeader w = false ->
  execT p (newResponseWriter w) = Some (err, rw) ->
  isWritten rw = wroteHeader (underlying rw).
Proof.
  intros Hw Hx.
  destruct (@exec_tracked _ sinkR _ _ _ _ Hx) as (Hu & Hc & Hf).
  rewrite Hf, Hc. cbn.
  rewrite (proj2 (recorder_firstStatus _ _ _ _ Hu Hw)).
  rewrite firstStatus_isWriteCall. now rewrite (@calls_writeCalls _ sinkR).
Qed.

(** X4. On a recorder that was not written when the dispatcher took it, the flag
    of the tracked writer agrees with the recorder after any handler:
    [isWritten] is true exactly when the header of the response is
    written. *)
Theorem isWritten_agrees_with_recorder
    (p : prog) (w : ResponseRecorder) (rw : responseWriter ResponseRecorder)
    (err : option error) :
  wroteHeader w = false ->
  execT p (newResponseWriter w) = Some (err, rw) ->
  isWritten rw = wroteHeader (underlying rw).
Proof.
  exact (tracked_flag_recorder p w rw err).
Qed.

(** The responder on a recorder, in all cases: it panics on a code outside
    100..999 when the header is not written, and otherwise appends its
    document, the status line and the headers of the response being its own
    only when the header was not written. *)
Lemma Error_recorder_cases (w : ResponseRecorder) (code : Z) (msgs : list string) :
  @Error _ sinkR w code msgs =
  if wroteHeader w || validCode code then
    Some ({| Code := if wroteHeader w then Code w else code;
             HeaderMap := Header_Set (HeaderMap w) "Content-Type"
                            "application/json; charset=utf-8";
             Body := (Body w ++ [Doc (marshalErrorMessage (NewErrorMessage msgs))])%list;
             wroteHeader := true;
             snapHeader := if wroteHeader w then snapHeader w
                           else Some (HeaderMap w) |}, [])
  else None.
Proof.
  destruct (wroteHeader w) eqn:Hw; cbn [orb].
  - now rewrite Error_recorder_committed.
  - destruct (validCode code) eqn:Hv.
    + now rewrite Error_recorder_fresh.
    + unfold Error. cbn. unfold Recorder_WriteHeader. now rewrite Hw, Hv.
Qed.

End RecorderRuns.

(** ** The dispatcher, by the outcome of the handler *)

Section DispatcherSink.

Context {W : Type} `{!ResponseWriter W}.
Variable ParseMediaType : string -> option string.

(** What the dispatcher does to the sink once the gate is passed: nothing
    after a handler that wrote and returned nil, and in every other case the
    one call of the responder that the returned error selects. *)
Lemma serve_sink (h : HandlerWithContext) (w : W) (r : Request) :
  sink <$> serve h w r =
  match exec (h r) (newResponseWriter w) with
  | None => None
  | Some (err, rw) =>
      if bool_decide (err = None) && isWritten rw then Some (underlying rw)
      else fst <$> Error (underlying rw) (fst (errorResponse err))
                     (snd (errorResponse err))
  end.
Proof.
  unfold serve.
  destruct (exec (h r) (newResponseWriter w)) as [[[e|] rw]|]; [| |reflexivity].
  - cbn. unfold errorResponse.
    destruct (errorsAs e) as [a|]; cbn; rewrite Error_tracked;
      destruct (Error (underlying rw) _ _) as [[u l]|]; reflexivity.
  - rewrite bool_decide_eq_true_2 by reflexivity. cbn [andb].
    destruct (isWritten rw); cbn; [reflexivity|].
    rewrite Error_tracked.
    destruct (Error (underlying rw) _ _) as [[u l]|]; reflexivity.
Qed.

(** X5. The handler is called once when the method of the request is none of
    POST, PUT and PATCH, whatever its headers, or when an element of its
    content type parses to a type with an accepted prefix; otherwise it is
    not called. *)
Theorem invocations_by_gate
    (h : HandlerWithContext) (w : W) (r : Request) (out : outcome W) :
  ServeHTTP ParseMediaType h w r = Some out ->
  invocations out =
  if negb (isMutating (Method r)) || Spec.headerAccepted ParseMediaType r
  then 1%nat else 0%nat.
Proof.
  rewrite <- gatePasses_spec. intros Hs.
  destruct (gatePasses ParseMediaType r) eqn:Hg.
  - rewrite ServeHTTP_passes in Hs by exact Hg. unfold serve in Hs.
    destruct (exec (h r) (newResponseWriter w)) as [[err rw]|]; [|discriminate].
    repeat match type of Hs with
           | context [match ?x with _ => _ end] => destruct x; try discriminate
           | context [if ?x then _ else _] => destruct x; try discriminate
           end; now inversion Hs.
  - rewrite ServeHTTP_rejects in Hs by exact Hg.
    destruct (Error w _ _) as [[w' l]|]; [|discriminate]. now inversion Hs.
Qed.

(** X6. The sink is left the same for two returned errors whose first API error
    has the same status code and the same messages: the cause of an API
    error, the texts of the errors that wrap it and the text of the error
    itself never reach the sink. *)
Theorem response_ignores_cause
    (h1 h2 : HandlerWithContext) (w : W) (r : Request)
    (e1 e2 : error) (a1 a2 : apiError) (rw : responseWriter W) :
  exec (h1 r) (newResponseWriter w) = Some (Some e1, rw) ->
  exec (h2 r) (newResponseWriter w) = Some (Some e2, rw) ->
  errorsAs e1 = Some a1 ->
  errorsAs e2 = Some a2 ->
  StatusCode a1 = StatusCode a2 ->
  Errors a1 = Errors a2 ->
  sink <$> ServeHTTP ParseMediaType h1 w r
  = sink <$> ServeHTTP ParseMediaType h2 w r.
Proof.
  intros H1 H2 A1 A2 Hs He.
  destruct (gatePasses ParseMediaType r) eqn:Hg.
  - rewrite !ServeHTTP_passes by exact Hg.
    rewrite !serve_sink, H1, H2. cbn. unfold errorResponse.
    now rewrite A1, A2, Hs, He.
  - rewrite !ServeHTTP_rejects by exact Hg. reflexivity.
Qed.

(** X7. A handler that answers with [EncodeJSON] is never taken for one that did
    nothing. When the encoder succeeds the dispatcher leaves the sink as the
    encoder left it; when it fails the dispatcher calls the responder with
    the status 500 and no message. *)
Theorem encodeHandler_outcome (v : json) (w : W) (r : Request) :
  gatePasses ParseMediaType r = true ->
  sink <$> ServeHTTP ParseMediaType (encodeHandler v) w r =
  match EncodeJSON w v with
  | (w', None) => Some w'
  | (w', Some _) => fst <$> Error w' StatusInternalServerError []
  end.
Proof.
  intros Hg. rewrite ServeHTTP_passes by exact Hg.
  rewrite serve_sink. unfold EncodeJSON. cbn.
  unfold responseWriter_Encode. cbn.
  destruct (Encode v w) as [w' [c|]]; reflexivity.
Qed.

End DispatcherSink.

(** ** The dispatcher on the recorder, in all cases *)

Section ClientViewAll.

Variable DetectContentType : list byte -> string.
Variable ParseMediaType : string -> option string.

Local Abbreviation sinkR := (Recorder_ResponseWriter DetectContentType).
Local Abbreviation ServeHTTPR := (@ServeHTTP _ sinkR ParseMediaType).
Local Abbreviation execT := (@exec _ (@responseWriter_ResponseWriter _ sinkR)).

(** From a recorder that was not written, a run that writes the header
    leaves a snapshot of the headers. *)
Lemma recorder_snapshot (p : prog) :
  forall (w w' : ResponseRecorder) (err : option error),
    @exec _ sinkR p w = Some (err, w') ->
    wroteHeader w = false ->
    wroteHeader w' = true ->
    is_Some (snapHeader w').
Proof.
  induction p as [e|k v p IH|code p IH|b next IH|v next IH];
    intros w w' err Hx Hw Hw'; cbn in *.
  - inversion Hx; subst. congruence.
  - apply IH in Hx; [exact Hx|exact Hw|exact Hw'].
  - unfold Recorder_WriteHeader in *. rewrite Hw in *.
    destruct (validCode code); [|discriminate].
    apply exec_recorder_committed in Hx; [|reflexivity].
    destruct Hx as (_ & _ & H3). rewrite H3. cbn. eauto.
  - apply exec_recorder_committed in Hx.
    + destruct Hx as (_ & _ & H3). rewrite H3. cbn.
      unfold Recorder_writeHeader. rewrite Hw. cbn. eauto.
    + cbn. unfold Recorder_writeHeader. now rewrite Hw.
  - apply exec_recorder_committed in Hx.
    + destruct Hx as (_ & _ & H3). rewrite H3. cbn.
      unfold Recorder_writeHeader. rewrite Hw. cbn. eauto.
    + cbn. unfold Recorder_writeHeader. now rewrite Hw.
Qed.

(** The sink the dispatcher leaves on the recorder, by the run of the
    handler. *)
Lemma ServeHTTP_recorder_sink
    (h : HandlerWithContext) (w : ResponseRecorder) (r : Request)
    (err : option error) (rw : responseWriter ResponseRecorder) :
  gatePasses ParseMediaType r = true ->
  execT (h r) (newResponseWriter w) = Some (err, rw) ->
  sink <$> ServeHTTPR h w r =
  if bool_decide (err = None) && isWritten rw then Some (underlying rw)
  else fst <$> @Error _ sinkR (underlying rw) (fst (errorResponse err))
                 (snd (errorResponse err)).
Proof.
  intros Hg Hx. rewrite ServeHTTP_passes by exact Hg.
  rewrite (@serve_sink _ sinkR). now rewrite Hx.
Qed.

(** X8. The bytes of the handler are never dropped and never follow the error
    document: the body the dispatcher leaves is the body the handler left,
    with nothing added after a handler that wrote and returned nil, and with
    one error document added in every other case. *)
Theorem body_gains_at_most_one_document
    (h : HandlerWithContext) (w : ResponseRecorder) (r : Request)
    (err : option error) (rw : responseWriter ResponseRecorder)
    (out : outcome ResponseRecorder) :
  gatePasses ParseMediaType r = true ->
  execT (h r) (newResponseWriter w) = Some (err, rw) ->
  ServeHTTPR h w r = Some out ->
  Body (sink out) =
  (Body (underlying rw) ++
   if bool_decide (err = None) && isWritten rw then []
   else [Doc (marshalErrorMessage (NewErrorMessage (snd (errorResponse err))))])%list.
Proof.
  intros Hg Hx Hs.
  pose proof (ServeHTTP_recorder_sink h w r err rw Hg Hx) as Hk.
  rewrite Hs in Hk. cbn [fmap option_fmap option_map] in Hk.
  destruct (bool_decide (err = None) && isWritten rw).
  - inversion Hk as [H0]. rewrite H0. now rewrite app_nil_r.
  - rewrite Error_recorder_cases in Hk.
    destruct (wroteHeader (underlying rw) || validCode _); [|discriminate].
    cbn in Hk. inversion Hk as [H0]. rewrite H0. reflexivity.
Qed.

(** X9. On the recorder the dispatcher panics in two cases only: the handler
    panics, or it returns an API error whose status code is outside 100..999
    while the header of the response is not written. *)
Theorem panics_exactly_when
    (h : HandlerWithContext) (w : ResponseRecorder) (r : Request) :
  ServeHTTPR h w r = None <->
  gatePasses ParseMediaType r = true
  /\ (execT (h r) (newResponseWriter w) = None
      \/ exists e rw a,
           execT (h r) (newResponseWriter w) = Some (Some e, rw)
           /\ errorsAs e = Some a
           /\ validCode (StatusCode a) = false
           /\ wroteHeader (underlying rw) = false).
Proof.
  destruct (gatePasses ParseMediaType r) eqn:Hg.
  - destruct (execT (h r) (newResponseWriter w)) as [[err rw]|] eqn:Hx.
    + pose proof (ServeHTTP_recorder_sink h w r err rw Hg Hx) as Hk.
      rewrite Error_recorder_cases in Hk.
      split.
      * intros Hs. rewrite Hs in Hk. cbn in Hk.
        split; [reflexivity|]. right.
        destruct (bool_decide (err = None) && isWritten rw); [discriminate|].
        destruct (wroteHeader (underlying rw)) eqn:Hw; [discriminate|].
        cbn [orb] in Hk.
        destruct err as [e|]; [|discriminate].
        unfold errorResponse in Hk.
        destruct (errorsAs e) as [a|] eqn:Ha; [|discriminate].
        cbn [fst] in Hk.
        destruct (validCode (StatusCode a)) eqn:Hv; [discriminate|].
        exists e, rw, a. auto.
      * intros [_ [Hn | (e & rw' & a & Hx' & Ha & Hv & Hw)]]; [discriminate|].
        inversion Hx'; subst.
        unfold errorResponse in Hk. rewrite Ha in Hk. cbn [fst snd] in Hk.
        rewrite Hw, Hv in Hk. cbn in Hk.
        destruct (ServeHTTPR h w r); [discriminate|reflexivity].
    + split.
      * intros _. auto.
      * intros _. rewrite ServeHTTP_passes by exact Hg.
        unfold serve. now rewrite Hx.
  - split; [|intros [? _]; discriminate].
    rewrite ServeHTTP_rejects by exact Hg.
    rewrite Error_recorder_cases.
    destruct (wroteHeader w); cbn; discriminate.
Qed.

(** X10. Once the handler has written the header, the dispatcher cannot replace
    it: whatever the handler returns, the dispatcher returns, and the status
    code and the headers the client reads are those the handler
    committed. *)
Theorem committed_response_stands
    (h : HandlerWithContext) (w : ResponseRecorder) (r : Request)
    (err : option error) (rw : responseWriter ResponseRecorder) :
  gatePasses ParseMediaType r = true ->
  wroteHeader w = false ->
  execT (h r) (newResponseWriter w) = Some (err, rw) ->
  wroteHeader (underlying rw) = true ->
  exists out,
    ServeHTTPR h w r = Some out
    /\ RespStatusCode (Result (sink out)) = RespStatusCode (Result (underlying rw))
    /\ RespHeader (Result (sink out)) = RespHeader (Result (underlying rw)).
Proof.
  intros Hg Hw0 Hx Hw.
  pose proof (ServeHTTP_recorder_sink h w r err rw Hg Hx) as Hk.
  rewrite Error_recorder_cases, Hw in Hk. cbn [orb] in Hk.
  destruct (@exec_tracked _ sinkR _ _ _ _ Hx) as (Hu & _).
  destruct (recorder_snapshot _ _ _ _ Hu Hw0 Hw) as [snap Hsnap].
  destruct (ServeHTTPR h w r) as [out|].
  - exists out. split; [reflexivity|].
    destruct (bool_decide (err = None) && isWritten rw);
      cbn in Hk; inversion Hk as [H0]; rewrite H0; cbn;
      rewrite ?Hsnap; auto.
  - destruct (bool_decide (err = None) && isWritten rw); discriminate.
Qed.

(** X11. When the dispatcher answers for a handler that wrote nothing, the
    headers of the response are the header map as the handler left it: the
    headers the handler set are sent, and the content type of the responder,
    set after the status line, is not. *)
Theorem error_response_headers
    (h : HandlerWithContext) (w : ResponseRecorder) (r : Request)
    (err : option error) (rw : responseWriter ResponseRecorder)
    (out : outcome ResponseRecorder) :
  gatePasses ParseMediaType r = true ->
  wroteHeader w = false ->
  execT (h r) (newResponseWriter w) = Some (err, rw) ->
  wroteHeader (underlying rw) = false ->
  ServeHTTPR h w r = Some out ->
  RespHeader (Result (sink out)) = HeaderMap (underlying rw)
  /\ RespStatusCode (Result (sink out)) = fst (errorResponse err)
  /\ HeaderMap (sink out) !! "Content-Type"
     = Some ["application/json; charset=utf-8"].
Proof.
  intros Hg Hw0 Hx Hw Hs.
  pose proof (ServeHTTP_recorder_sink h w r err rw Hg Hx) as Hk.
  rewrite (tracked_flag_recorder _ _ _ _ _ Hw0 Hx), Hw in Hk.
  rewrite andb_false_r in Hk.
  rewrite Error_recorder_cases, Hw, Hs in Hk. cbn [orb] in Hk.
  destruct (validCode (fst (errorResponse err))) eqn:Hv; [|discriminate].
  cbn in Hk. inversion Hk as [H0]. rewrite H0. cbn.
  split; [reflexivity|]. split.
  - unfold validCode in Hv. apply andb_true_iff in Hv.
    destruct (fst (errorResponse err) =? 0)%Z eqn:Hz; [lia|reflexivity].
  - unfold Header_Set. apply lookup_insert_eq.
Qed.

End ClientViewAll.

(** ** The two dispatchers without a timeout *)

Section RestVariant.

Context {W : Type} `{!ResponseWriter W}.
Variable ParseMediaType : string -> option string.

(** Setting the flag before the call or after it leaves the same tracked
    writer. *)
Lemma Rest_WriteHeader_eq (st : Z) (rw : responseWriter W) :
  Rest.responseWriter_WriteHeader st rw = responseWriter_WriteHeader st rw.
Proof.
  unfold Rest.responseWriter_WriteHeader, responseWriter_WriteHeader. cbn.
  destruct (WriteHeader st (underlying rw)); reflexivity.
Qed.

Lemma Rest_Write_eq (b : list byte) (rw : responseWriter W) :
  Rest.responseWriter_Write b rw = responseWriter_Write b rw.
Proof.
  unfold Rest.responseWriter_Write, responseWriter_Write. cbn.
  destruct (Write b (underlying rw)) as [u [i e]]. reflexivity.
Qed.

Lemma Rest_Encode_eq (v : json) (rw : responseWriter W) :
  Rest.responseWriter_Encode v rw = responseWriter_Encode v rw.
Proof.
  unfold Rest.responseWriter_Encode, responseWriter_Encode. cbn.
  destruct (Encode v (underlying rw)) as [u e]. reflexivity.
Qed.

Lemma Rest_exec_eq (p : prog) :
  forall rw : responseWriter W, @exec _ Rest.tracked p rw = exec p rw.
Proof.
  induction p as [e|k v p IH|code p IH|b next IH|v next IH]; intros rw; cbn.
  - reflexivity.
  - apply IH.
  - rewrite Rest_WriteHeader_eq.
    destruct (responseWriter_WriteHeader code rw); [apply IH|reflexivity].
  - rewrite Rest_Write_eq.
    destruct (responseWriter_Write b rw) as [rw' [i e]]. apply IH.
  - rewrite Rest_Encode_eq.
    destruct (responseWriter_Encode v rw) as [rw' e]. apply IH.
Qed.

Lemma Rest_Error_tracked_eq (rw : responseWriter W) (code : Z) (msgs : list string) :
  fst <$> @Rest.Error _ Rest.tracked rw code msgs = fst <$> Error rw code msgs.
Proof.
  unfold Rest.Error, Error, Rest.EncodeJSON, EncodeJSON. cbn.
  rewrite Rest_WriteHeader_eq.
  destruct (responseWriter_WriteHeader code rw) as [rw1|]; [|reflexivity].
  rewrite Rest_Encode_eq.
  destruct (responseWriter_Encode _ _) as [rw3 [e|]]; reflexivity.
Qed.

Lemma Rest_Error_eq (w : W) (code : Z) (msgs : list string) :
  fst <$> Rest.Error w code msgs = fst <$> Error w code msgs.
Proof.
  unfold Rest.Error, Error, Rest.EncodeJSON, EncodeJSON.
  destruct (WriteHeader code w) as [w1|]; [|reflexivity].
  destruct (Encode _ _) as [w3 [e|]]; reflexivity.
Qed.

(** X12. The dispatcher of package [rest] without a timeout and the dispatcher of
    [restflex] do the same to the sink and call the handler as often, for
    every handler, request and sink: they differ in what they log only. *)
Theorem Rest_ServeHTTP_same_response
    (h : HandlerWithContext) (w : W) (r : Request) :
  (fun o => (Rest.sink o, Rest.invocations o)) <$> Rest.ServeHTTP ParseMediaType h w r
  = (fun o => (sink o, invocations o)) <$> ServeHTTP ParseMediaType h w r.
Proof.
  unfold Rest.ServeHTTP, ServeHTTP.
  assert (Hserve :
    (fun o => (Rest.sink o, Rest.invocations o)) <$> Rest.serve h w r
    = (fun o => (sink o, invocations o)) <$> serve h w r).
  { unfold Rest.serve, serve. rewrite Rest_exec_eq.
    destruct (exec (h r) (newResponseWriter w)) as [[err rw]|]; [|reflexivity].
    destruct (bool_decide (err = None) && negb (isWritten rw)).
    - pose proof (Rest_Error_tracked_eq rw StatusNotImplemented
                    [StatusText StatusNotImplemented]) as He.
      destruct (@Rest.Error _ Rest.tracked rw _ _) as [[a la]|],
               (Error rw _ _) as [[b lb]|]; cbn in He; try discriminate;
        [inversion He; subst|]; reflexivity.
    - destruct err as [e|]; [|reflexivity].
      destruct (As (Some e)) as [a|].
      + pose proof (Rest_Error_tracked_eq rw (StatusCode a) (Errors a)) as He.
        destruct (@Rest.Error _ Rest.tracked rw _ _) as [[x lx]|],
                 (Error rw _ _) as [[y ly]|]; cbn in He; try discriminate;
          [inversion He; subst|]; reflexivity.
      + pose proof (Rest_Error_tracked_eq rw StatusInternalServerError
                      [StatusText StatusInternalServerError]) as He.
        destruct (@Rest.Error _ Rest.tracked rw _ _) as [[x lx]|],
                 (Error rw _ _) as [[y ly]|]; cbn in He; try discriminate;
          [inversion He; subst|]; reflexivity. }
  destruct (isMutating (Method r)); [|exact Hserve].
  destruct (negb (correctContentTypeFound ParseMediaType r)); [|exact Hserve].
  pose proof (Rest_Error_eq w StatusUnsupportedMediaType [gateMessage]) as He.
  destruct (Rest.Error w _ _) as [[x lx]|], (Error w _ _) as [[y ly]|];
    cbn in He; try discriminate; [inversion He; subst|]; reflexivity.
Qed.

End RestVariant.

(** ** [errors.Is] against an API error *)

(** X13. Against a target that is an API error, [errors.Is] holds of an error
    exactly when the error is or wraps an API error, whichever: the status
    code and the messages of neither play a part. The comparison of
    interface values is any that holds of values of one dynamic type
    only. *)
Theorem errorsIs_any_API_error
    (same : error -> error -> bool) (err : error) (target : apiError) :
  (forall e b, same e (apiErr b) = true -> exists a, e = apiErr a) ->
  errorsIs same err (apiErr target) = bool_decide (is_Some (errorsAs err)).
Proof.
  intros Hsame.
  induction err as [text|text inner IH|a]; cbn.
  - destruct (same (errorString text) (apiErr target)) eqn:Hs; [|reflexivity].
    destruct (Hsame _ _ Hs) as [a Ha]. discriminate.
  - destruct (same (wrapError text inner) (apiErr target)) eqn:Hs.
    + destruct (Hsame _ _ Hs) as [a Ha]. discriminate.
    + exact IH.
  - destruct a as [s c ms]. cbn. now rewrite orb_true_r.
Qed.

(** ** What the dispatcher logs *)

Section LogFacts.

Context {W : Type} `{!ResponseWriter W}.
Variable ParseMediaType : string -> option string.

(** X14. The lines that report a client or a server error follow the status the
    handler itself wrote. After a handler whose calls leave the status of
    the tracked writer at 200, none is logged, whatever the status of the
    error response the dispatcher then writes. *)
Theorem no_status_line_without_handler_status
    (h : HandlerWithContext) (w : W) (r : Request)
    (err : option error) (rw : responseWriter W) (out : outcome W) :
  gatePasses ParseMediaType r = true ->
  exec (h r) (newResponseWriter w) = Some (err, rw) ->
  lastCode (calls (h r) (newResponseWriter w)) StatusOK = StatusOK ->
  ServeHTTP ParseMediaType h w r = Some out ->
  existsb isStatusLine (logged out) = false.
Proof.
  intros Hg Hx Hl Hs.
  rewrite ServeHTTP_passes in Hs by exact Hg.
  unfold serve in Hs. rewrite Hx in Hs.
  pose proof (status_lastCode _ _ _ _ Hx) as Hst. cbn in Hst. rewrite Hl in Hst.
  rewrite Hst in Hs. cbn [logStatus] in Hs.
  assert (HE : forall code msgs rw' l,
             Error rw code msgs = Some (rw', l) -> existsb isStatusLine l = false).
  { intros code msgs rw' l He. unfold Error in He.
    destruct (WriteHeader code rw); [|discriminate].
    destruct (EncodeJSON _ _) as [w3 [e|]]; inversion He; reflexivity. }
  destruct (bool_decide (err = None) && negb (isWritten rw)).
  - destruct (Error rw _ _) as [[rw' l]|] eqn:He; [|discriminate].
    inversion Hs; subst. cbn. exact (HE _ _ _ _ He).
  - destruct err as [e|].
    + destruct (As (Some e)) as [a|].
      * destruct (Error rw _ _) as [[rw' l]|] eqn:He; [|discriminate].
        inversion Hs; subst. cbn. exact (HE _ _ _ _ He).
      * destruct (Error rw _ _) as [[rw' l]|] eqn:He; [|discriminate].
        inversion Hs; subst. cbn. exact (HE _ _ _ _ He).
    + inversion Hs; subst. reflexivity.
Qed.

End LogFacts.

(** ** The responder of the legacy package *)


(** ** The further properties on concrete runs *)

Section MoreRuns.

Import Examples Mime.

Local Abbreviation run := (@ServeHTTP _ recorder asciiParseMediaType).
Local Abbreviation tracked := (@responseWriter_ResponseWriter _ recorder).
Local Abbreviation get := (newRequest "GET" None).

(** A handler that only sets a header leaves the flag false; one that then
    writes the status leaves it true. *)
Lemma isWritten_exact_witness :
  (exists rw,
     @exec _ tracked (SetHeader "X-Request-Id" "42" (Return None))
       (newResponseWriter NewRecorder) = Some (None, rw)
     /\ isWritten rw = false)
  /\ (exists rw,
        @exec _ tracked (twoStatusHandler get) (newResponseWriter NewRecorder)
        = Some (Some (errorString "late failure"), rw)
        /\ isWritten rw = true).
Proof.
  split; eexists; (split; [reflexivity|]).
  - exact (@isWritten_exact _ recorder
             (SetHeader "X-Request-Id" "42" (Return None))
             (newResponseWriter NewRecorder) _ _ eq_refl).
  - exact (@isWritten_exact _ recorder (twoStatusHandler get)
             (newResponseWriter NewRecorder) _ _ eq_refl).
Defined.

(** The handler that writes 201 and then 404: the client reads 201, the
    tracked writer holds 404. *)
Lemma status_first_write_last_header_witness :
  exists rw,
    @exec _ tracked (twoStatusHandler get) (newResponseWriter NewRecorder)
    = Some (Some (errorString "late failure"), rw)
    /\ Code (underlying rw) = 201
    /\ status rw = 404.
Proof.
  eexists. split; [reflexivity|].
  exact (status_first_write_last_header detectText (twoStatusHandler get)
           NewRecorder _ _ eq_refl eq_refl).
Defined.

Lemma isWritten_agrees_with_recorder_witness :
  exists rw,
    @exec _ tracked (bodyHandler get) (newResponseWriter NewRecorder)
    = Some (None, rw)
    /\ isWritten rw = wroteHeader (underlying rw)
    /\ wroteHeader (underlying rw) = true.
Proof.
  eexists. split; [reflexivity|]. split; [|reflexivity].
  exact (isWritten_agrees_with_recorder detectText (bodyHandler get)
           NewRecorder _ _ eq_refl eq_refl).
Defined.

(** A PATCH request with a JSON patch content type, whose type begins with
    an accepted prefix, reaches the handler; a POST request with a text
    content type does not. *)
Lemma invocations_by_gate_witness :
  (exists out,
     run headerHandler NewRecorder
       (newRequest "PATCH" (Some "text/plain, application/json-patch+json"))
     = Some out
     /\ invocations out = 1%nat)
  /\ (exists out,
        run headerHandler NewRecorder (newRequest "POST" (Some "text/plain"))
        = Some out
        /\ invocations out = 0%nat).
Proof.
  split; eexists; (split; [reflexivity|]).
  - exact (@invocations_by_gate _ recorder asciiParseMediaType headerHandler
             NewRecorder
             (newRequest "PATCH" (Some "text/plain, application/json-patch+json"))
             _ eq_refl).
  - exact (@invocations_by_gate _ recorder asciiParseMediaType headerHandler
             NewRecorder (newRequest "POST" (Some "text/plain")) _ eq_refl).
Defined.

(** Two API errors of one status and one message list, with and without a
    cause. *)
Lemma response_ignores_cause_witness :
  sink <$> run (causeHandler (Some (errorString "sql: no rows in result set")))
             NewRecorder get
  = sink <$> run (causeHandler None) NewRecorder get.
Proof.
  exact (@response_ignores_cause _ recorder asciiParseMediaType
           (causeHandler (Some (errorString "sql: no rows in result set")))
           (causeHandler None) NewRecorder get _ _ _ _ _
           eq_refl eq_refl eq_refl eq_refl eq_refl eq_refl).
Defined.

(** [EncodeJSON] as the whole handler, on the recorder, where it succeeds,
    and on a sink that fails every write. *)
Lemma encodeHandler_outcome_witness :
  (sink <$> run (encodeHandler (JBool true)) NewRecorder get
   = Some (fst (@EncodeJSON _ recorder NewRecorder (JBool true))))
  /\ (sink <$> @ServeHTTP _ closedSink asciiParseMediaType
                 (encodeHandler (JBool true)) tt get
      = fst <$> @Error _ closedSink tt StatusInternalServerError []).
Proof.
  split.
  - exact (@encodeHandler_outcome _ recorder asciiParseMediaType
             (JBool true) NewRecorder get eq_refl).
  - exact (@encodeHandler_outcome _ closedSink asciiParseMediaType
             (JBool true) tt get eq_refl).
Defined.

(** The handler that writes bytes and fails: its bytes, then the error
    document. *)
Lemma body_gains_at_most_one_document_witness :
  exists out,
    run partialBodyHandler NewRecorder get = Some out
    /\ Body (sink out)
       = [Raw (list_byte_of_string "partial");
          Doc (marshalErrorMessage (NewErrorMessage ["invalid input"]))].
Proof.
  eexists. split; [reflexivity|].
  exact (body_gains_at_most_one_document detectText asciiParseMediaType
           partialBodyHandler NewRecorder get _ _ _ eq_refl eq_refl eq_refl).
Defined.

(** An API error of status 0 makes the dispatcher panic. *)
Lemma panics_exactly_when_witness :
  run zeroStatusHandler NewRecorder get = None.
Proof.
  apply (proj2 (panics_exactly_when detectText asciiParseMediaType
                  zeroStatusHandler NewRecorder get)).
  split; [reflexivity|]. right.
  exists (NewAPIError 0 None ["no status"]), (newResponseWriter NewRecorder),
    (mkAPIError 0 None ["no status"]).
  repeat split.
Defined.

(** The handler that writes 201 and fails: the client reads 201 and the
    header the handler set. *)
Lemma committed_response_stands_witness :
  exists out,
    run twoStatusHandler NewRecorder get = Some out
    /\ RespStatusCode (Result (sink out)) = 201
    /\ RespHeader (Result (sink out)) = {[ "X-Request-Id" := ["42"] ]}.
Proof.
  destruct (committed_response_stands detectText asciiParseMediaType
              twoStatusHandler NewRecorder get _ _ eq_refl eq_refl eq_refl eq_refl)
    as (out & H1 & H2 & H3).
  exists out. repeat split; assumption.
Defined.

(** The handler that sets [Retry-After] and returns an API error of status
    429: the response carries that header and no content type. *)
Lemma error_response_headers_witness :
  exists out,
    run headerThenErrorHandler NewRecorder get = Some out
    /\ RespHeader (Result (sink out)) = {[ "Retry-After" := ["120"] ]}
    /\ RespStatusCode (Result (sink out)) = 429
    /\ RespHeader (Result (sink out)) !! "Content-Type" = None.
Proof.
  eexists. split; [reflexivity|].
  destruct (error_response_headers detectText asciiParseMediaType
              headerThenErrorHandler NewRecorder get _ _ _
              eq_refl eq_refl eq_refl eq_refl eq_refl) as (H1 & H2 & _).
  split; [exact H1|]. split; [exact H2|]. reflexivity.
Defined.

(** [errors.Is] of a bad request, wrapped, against another API error. *)
Lemma errorsIs_any_API_error_witness :
  errorsIs distinct
    (wrapError "handler: bad request" (NewBadRequest ["invalid input"]))
    (apiErr (mkAPIError 404 None ["item not found"]))
  = true.
Proof.
  exact (errorsIs_any_API_error distinct
           (wrapError "handler: bad request" (NewBadRequest ["invalid input"]))
           (mkAPIError 404 None ["item not found"])
           (fun e b H => False_ind _ (Bool.diff_false_true H))).
Defined.

(** The API error of a status 404 logs no status line when the handler wrote
    no status itself. *)
Lemma no_status_line_without_handler_status_witness :
  exists out,
    run (fun _ => Return (Some (NewAPIError 404 None ["item not found"])))
      NewRecorder get = Some out
    /\ RespStatusCode (Result (sink out)) = 404
    /\ existsb isStatusLine (logged out) = false.
Proof.
  eexists. split; [reflexivity|]. split; [reflexivity|].
  exact (@no_status_line_without_handler_status _ recorder asciiParseMediaType
           (fun _ => Return (Some (NewAPIError 404 None ["item not found"])))
           NewRecorder get _ _ _ eq_refl eq_refl eq_refl eq_refl).
Defined.


End MoreRuns.
